(** * expo-cli: webpack configuration glue, compiler messages, changelog script

    A shallow embedding of
    - [packages/webpack-config/webpack/webpack.common.js]
      ([getDevtool] and the exported configuration builder),
    - the compiler wrapper [createWebpackCompiler] with its ['invalid'] and
      ['done'] hooks,
    - [scripts/generateChangelog.js],
    followed by the properties stated about them.

    JavaScript values are a small inductive type; objects are finite maps
    from property names to values.  Functions imported from other modules
    (webpack plugins, chalk, react-dev-utils, ProjectUtils, ...) are not part
    of these files: they are taken as parameters (type classes of imports),
    or recorded as effects when they are called for their side effect. *)

From Stdlib Require Import ZArith Ascii String List.
From stdpp Require Import base option list gmap strings pretty.

Set Warnings "-register-all".
Open Scope string_scope.
Open Scope list_scope.

(** ** JavaScript values *)

Module JS.

(** [VRef] is a reference to a function or class that lives outside the
    modelled files; [VNew] is an instance built by [new ctor(args...)] of
    such a class.  Numbers are the integers; other floating point numbers do
    not occur in the modelled code. *)
Inductive value : Type :=
| VUndefined
| VNull
| VBool (b : bool)
| VNum (n : Z)
| VStr (s : string)
| VRegExp (source : string)
| VRef (name : string)
| VNew (ctor : string) (args : list value)
| VArr (items : list value)
| VObj (props : gmap string value).

(** ToBoolean. *)
Definition truthy (v : value) : bool :=
  match v with
  | VUndefined | VNull => false
  | VBool b => b
  | VNum n => negb (Z.eqb n 0)
  | VStr s => negb (String.eqb s "")
  | _ => true
  end.

Definition nullish (v : value) : bool :=
  match v with
  | VUndefined | VNull => true
  | _ => false
  end.

(** [v === undefined] *)
Definition is_undefined (v : value) : bool :=
  match v with
  | VUndefined => true
  | _ => false
  end.

(** [a || b] *)
Definition js_or (a b : value) : value := if truthy a then a else b.

(** [c ? a : b] *)
Definition cond (c a b : value) : value := if truthy c then a else b.

(** Completion of an expression: a value, or a thrown value. *)
Inductive completion (A : Type) : Type :=
| Normal (a : A)
| Throw (e : value).
Arguments Normal {A} a.
Arguments Throw {A} e.

#[global] Instance completion_ret : MRet completion := fun A a => Normal a.
#[global] Instance completion_bind : MBind completion := fun A B f m =>
  match m with
  | Normal a => f a
  | Throw e => Throw e
  end.

Definition TypeError : value := VNew "TypeError" [].

(** Property read [v.k].  Reading from [undefined] or [null] throws a
    TypeError; a property that is not there reads as [undefined].  Only own
    data properties of object literals are modelled: the property names read
    by the modelled code are not inherited from the built-in prototypes. *)
Definition get (v : value) (k : string) : completion value :=
  match v with
  | VUndefined | VNull => Throw TypeError
  | VObj props => Normal (default VUndefined (props !! k))
  | _ => Normal VUndefined
  end.

(** The value read by [v.k] when the read does not throw. *)
Definition prop (v : value) (k : string) : value :=
  match get v k with
  | Normal x => x
  | Throw _ => VUndefined
  end.

(** Own enumerable properties, as copied by an object spread [{...v}] or by
    [Object.assign]: the properties of an object, the indexed elements of an
    array or of a string, nothing for the other values. *)
Definition own_props (v : value) : gmap string value :=
  match v with
  | VObj props => props
  | VArr items => list_to_map (imap (fun i x => (pretty i, x)) items)
  | VStr s =>
      list_to_map
        (imap (fun i c => (pretty i, VStr (String c EmptyString)))
              (list_ascii_of_string s))
  | _ => ∅
  end.

(** [Object.assign(target, source)] for an object [target]. *)
Definition Object_assign (target source : value) : value :=
  match target with
  | VObj props => VObj (own_props source ∪ props)
  | _ => target
  end.

(** Object literal [{ k1: v1, ..., kn: vn }]; a later key wins. *)
Definition obj (fields : list (string * value)) : value :=
  VObj (list_to_map (rev fields)).

(** Object literal that ends with a spread: [{ k1: v1, ..., kn: vn, ...v }]. *)
Definition obj_spread_last (fields : list (string * value)) (v : value) : value :=
  VObj (own_props v ∪ list_to_map (rev fields)).

(** Object literal that starts with a spread: [{ ...v, k1: v1, ..., kn: vn }]. *)
Definition obj_spread_first (v : value) (fields : list (string * value)) : value :=
  VObj (list_to_map (rev fields) ∪ own_props v).

End JS.
Export JS.

(** ** webpack.common.js *)

Module WebpackCommon.

(** The object returned by [getLocations(env.projectRoot)], with the members
    the configuration builder uses. *)
Record Locations : Type := {
  root : value;
  production_manifest : value;          (* locations.production.manifest *)
  production_folder : value;            (* locations.production.folder *)
  template_folder : value;              (* locations.template.folder *)
  includeModule : string -> value;
  absolute : list value -> value;
}.

(** What the file requires from other modules and from the runtime. *)
Class Imports : Type := {
  createEnvironmentConstants : value -> value -> value;
  createClientEnvironment : Locations -> value -> value -> value;
  createIndexHTMLFromAppJSON : value -> value -> Locations -> value;
  overrideWithPropertyOrConfig : value -> value -> value;
  getLocations : value -> Locations;
  chalk : list string -> string -> string;   (* chalk.s1.s2...(text) *)
  ToString : value -> string;                (* conversion in a template literal *)
  __dirname : value;
}.

Definition DEFAULT_SERVICE_WORKER : value := obj [].

Definition DEFAULT_REPORT_CONFIG : value :=
  obj [ ("verbose", VBool false);
        ("path", VStr "web-report");
        ("statsFilename", VStr "stats.json");
        ("reportFilename", VStr "report.html") ].

Definition imageLoaderConfiguration : value :=
  obj [ ("test", VRegExp "\.(gif|jpe?g|png|svg)$");
        ("use", obj [ ("loader", VStr "url-loader");
                      ("options", obj [ ("limit", VNum 1000);
                                        ("name", VStr "static/media/[name].[hash:8].[ext]") ]) ]) ].

Definition mediaLoaderConfiguration : value :=
  obj [ ("test", VRegExp "\.(mov|mp4|mp3|wav|webm|db)$");
        ("use", obj [ ("loader", VStr "file-loader");
                      ("options", obj [ ("name", VStr "static/media/[name].[hash:8].[ext]") ]) ]) ].

Definition styleLoaderConfiguration : value :=
  obj [ ("test", VRegExp "\.(css)$");
        ("use", VArr [ VStr "style-loader"; VStr "css-loader" ]) ].

(** The markup of [createNoJSComponent] is written here with an apostrophe
    for each double quote of the source; [dquotes] puts the double quotes
    back. *)
Fixpoint dquotes (s : string) : string :=
  match s with
  | EmptyString => EmptyString
  | String c rest =>
      String (if Ascii.eqb c "'"%char then "034"%char else c) (dquotes rest)
  end.

Section WithImports.
Context `{imports : Imports}.

Definition createNoJSComponent (message : value) : value :=
  VStr (dquotes "' <form action='' method='POST' style='background-color:#fff;position:fixed;top:0;left:0;right:0;bottom:0;z-index:9999;'><div style='font-size:18px;font-family:Helvetica,sans-serif;line-height:24px;margin:10%;width:80%;'> <p>"
        +:+ ToString message
        +:+ dquotes "</p> <p style='margin:20px 0;'> <button type='submit' style='background-color: #4630EB; border-radius: 100px; border: none; box-shadow: none; color: #fff; cursor: pointer; font-size: 14px; font-weight: bold; line-height: 20px; padding: 6px 16px;'>Ok</button> </p> </div> </form> '").

Definition getDevtool (env webConfig : value) : completion value :=
  production ← get env "production";
  if truthy production then
    devtool ← get webConfig "devtool";
    if negb (is_undefined devtool) then mret devtool
    else mret (VStr "source-map")
  else
    development ← get env "development";
    if truthy development then mret (VStr "cheap-module-source-map")
    else mret VUndefined.

(** The configuration object returned by the exported function. *)
Record Configuration : Type := {
  bail : value;
  devtool : value;
  context : value;
  output : value;
  plugins : list value;
  module_ : value;
  resolve : value;
  node : value;
  performance : value;
}.

(** The options of [new WorkboxPlugin.GenerateSW(...)], for the service
    worker configuration [serviceWorker]. *)
Definition generateSWOptions (publicPath serviceWorker : value) : value :=
  obj_spread_last
    [ ("exclude", VArr [ VRegExp "\.LICENSE$"; VRegExp "\.map$";
                         VRegExp "asset-manifest\.json$" ]);
      ("navigateFallback", VStr (ToString publicPath +:+ "index.html"));
      ("clientsClaim", VBool true);
      ("importWorkboxFrom", VStr "cdn");
      ("navigateFallbackBlacklist",
         VArr [ VRegExp "^/_"; VRegExp "/[^/]+\.[^/]+$" ]) ]
    serviceWorker.

(** The body of [if (reportConfig) { ... }]: the value assigned to
    [reportPlugins]. *)
Definition reportPluginsFor (locations : Locations) (reportConfig : value)
  : completion (list value) :=
  path ← get reportConfig "path";
  let reportDir := js_or path (VStr "web-report") in
  verbose ← get reportConfig "verbose";
  statsFilename ← get reportConfig "statsFilename";
  reportFilename ← get reportConfig "reportFilename";
  mret
    [ VNew "CleanWebpackPlugin"
        [ VArr [ absolute locations [reportDir] ];
          obj [ ("root", root locations);
                ("dry", VBool false);
                ("verbose", verbose) ] ];
      VNew "BundleAnalyzerPlugin"
        [ obj_spread_last
            [ ("analyzerMode", VStr "static");
              ("defaultSizes", VStr "gzip");
              ("generateStatsFile", VBool true);
              ("openAnalyzer", VBool false);
              ("logLevel", cond verbose (VStr "info") (VStr "silent"));
              ("statsFilename",
                 absolute locations
                   [reportDir; js_or statsFilename (VStr "stats.json")]);
              ("reportFilename",
                 absolute locations
                   [reportDir; js_or reportFilename (VStr "report.html")]) ]
            reportConfig ] ].

Definition resolveAlias : value :=
  obj [ ("react-native$", VStr "react-native-web");
        ("@react-native-community/netinfo", VStr "react-native-web/dist/exports/NetInfo");
        ("react-native/Libraries/Image/AssetSourceResolver$",
           VStr "expo-asset/build/AssetSourceResolver");
        ("react-native/Libraries/Image/assetPathUtils$",
           VStr "expo-asset/build/Image/assetPathUtils");
        ("react-native/Libraries/Image/resolveAssetSource$",
           VStr "expo-asset/build/resolveAssetSource");
        ("react-native/Libraries/Components/View/ViewStylePropTypes$",
           VStr "react-native-web/dist/exports/View/ViewStylePropTypes");
        ("react-native/Libraries/EventEmitter/RCTDeviceEventEmitter$",
           VStr "react-native-web/dist/vendor/react-native/NativeEventEmitter/RCTDeviceEventEmitter");
        ("react-native/Libraries/vendor/emitter/EventEmitter$",
           VStr "react-native-web/dist/vendor/react-native/emitter/EventEmitter");
        ("react-native/Libraries/vendor/emitter/EventSubscriptionVendor$",
           VStr "react-native-web/dist/vendor/react-native/emitter/EventSubscriptionVendor");
        ("react-native/Libraries/EventEmitter/NativeEventEmitter$",
           VStr "react-native-web/dist/vendor/react-native/NativeEventEmitter") ].

Definition nodeMocks : value :=
  obj [ ("module", VStr "empty"); ("dgram", VStr "empty"); ("dns", VStr "mock");
        ("fs", VStr "empty"); ("http2", VStr "empty"); ("net", VStr "empty");
        ("tls", VStr "empty"); ("child_process", VStr "empty") ].

(** [module.exports = function(env = {}, argv) { ... }] *)
Definition module_exports (env_arg argv : value) : completion Configuration :=
  let env := if is_undefined env_arg then obj [] else env_arg in
  projectRoot ← get env "projectRoot";
  let locations := getLocations projectRoot in
  isProduction ← get env "production";
  babelConfig ← get env "babelConfig";
  config ← get env "config";
  let publicAppManifest :=
    createEnvironmentConstants config (production_manifest locations) in
  let ttfLoaderConfiguration :=
    obj [ ("test", VRegExp "\.(ttf|otf|woff)$");
          ("use", VArr [ obj [ ("loader", VStr "url-loader");
                               ("options", obj [ ("limit", VNum 50000);
                                                 ("name", VStr "./fonts/[name].[ext]") ]) ] ]);
          ("include", VArr [ root locations;
                             includeModule locations "react-native-vector-icons";
                             includeModule locations "@expo/vector-icons" ]) ] in
  let htmlLoaderConfiguration :=
    obj [ ("test", VRegExp "\.html$");
          ("use", VArr [ VStr "html-loader" ]);
          ("exclude", template_folder locations) ] in
  let middlewarePlugins := [ VNew "WebpackDeepScopeAnalysisPlugin" [] ] in
  web ← get config "web";
  publicPath ← get web "publicPath";
  rootId ← get web "rootId";
  noJavaScriptMessage ← get web "noJavaScriptMessage";
  lang ← get web "lang";
  let noJSComponent := createNoJSComponent noJavaScriptMessage in
  serviceWorkerProp ←
    (if truthy isProduction then get web "serviceWorker" else mret (VBool false));
  let serviceWorker :=
    overrideWithPropertyOrConfig serviceWorkerProp DEFAULT_SERVICE_WORKER in
  let middlewarePlugins :=
    if truthy serviceWorker then
      middlewarePlugins ++
        [ VNew "WorkboxPlugin.GenerateSW" [ generateSWOptions publicPath serviceWorker ] ]
    else middlewarePlugins in
  development ← get env "development";
  let middlewarePlugins :=
    middlewarePlugins ++
      [ VNew "WebpackPWAManifestPlugin"
          [ config;
            obj_spread_first env
              [ ("noResources", development);
                ("filename", production_manifest locations) ] ] ] in
  report ← get web "report";
  let reportConfig := overrideWithPropertyOrConfig report DEFAULT_REPORT_CONFIG in
  reportPlugins ←
    (if truthy reportConfig then reportPluginsFor locations reportConfig
     else mret []);
  devtool ← getDevtool env web;
  webName ← get web "name";
  mret {|
    bail := isProduction;
    devtool := devtool;
    context := __dirname;
    output := obj [ ("path", production_folder locations);
                    ("sourceMapFilename", VStr "[chunkhash].map");
                    ("publicPath", publicPath) ];
    plugins :=
      [ createIndexHTMLFromAppJSON env config locations;
        VNew "InterpolateHtmlPlugin"
          [ VRef "HtmlWebpackPlugin";
            obj [ ("PUBLIC_URL", publicPath);
                  ("WEB_TITLE", webName);
                  ("NO_SCRIPT", noJSComponent);
                  ("LANG_ISO_CODE", lang);
                  ("ROOT_ID", rootId) ] ];
        VNew "webpack.DefinePlugin"
          [ createClientEnvironment locations publicPath publicAppManifest ] ]
      ++ middlewarePlugins
      ++ [ VNew "ModuleNotFoundPlugin" [ root locations ];
           VNew "ProgressBarPlugin"
             [ obj [ ("format",
                        VStr ("Building Webpack bundle [:bar] "
                              +:+ chalk ["green"; "bold"] ":percent"
                              +:+ " (:elapsed seconds) :msg"));
                     ("clear", VBool false);
                     ("complete", VStr "=");
                     ("incomplete", VStr " ") ] ] ]
      ++ reportPlugins;
    module_ :=
      obj [ ("strictExportPresence", VBool false);
            ("rules",
               VArr [ obj [ ("parser", obj [ ("requireEnsure", VBool false) ]) ];
                      htmlLoaderConfiguration;
                      babelConfig;
                      imageLoaderConfiguration;
                      ttfLoaderConfiguration;
                      mediaLoaderConfiguration;
                      styleLoaderConfiguration ]) ];
    resolve :=
      obj [ ("symlinks", VBool false);
            ("extensions",
               VArr [ VStr ".web.ts"; VStr ".ts"; VStr ".tsx"; VStr ".web.js";
                      VStr ".js"; VStr ".jsx"; VStr ".json" ]);
            ("alias", resolveAlias) ];
    node := nodeMocks;
    performance := VBool false;
  |}.

End WithImports.

End WebpackCommon.

(** ** The compiler wrapper: createWebpackCompiler *)

Module WebpackCompiler.

(** Calls made for their side effect.  [ProjectLog] stands for
    [ProjectUtils.logInfo], [logWarning] and [logError], with the project
    root, the tag and the message they are given. *)
Inductive level : Type := Info | Warning | Error.

Inductive effect : Type :=
| ClearConsole
| ProjectLog (lvl : level) (projectRoot : string) (tag : string) (message : value)
| HookTap (hook name : string)
| OnFinished.

(** How a piece of code ends: it returns, it throws and nothing catches the
    value, or it ends the process with [process.exit(code)]. *)
Inductive outcome (A : Type) : Type :=
| Returned (a : A)
| Uncaught (e : value)
| Exited (code : value).
Arguments Returned {A} a.
Arguments Uncaught {A} e.
Arguments Exited {A} code.

(** A run: the effects performed, in order, and the outcome. *)
Record proc (A : Type) : Type := Proc {
  trace : list effect;
  result : outcome A;
}.
Arguments Proc {A} trace result.
Arguments trace {A} p.
Arguments result {A} p.

#[global] Instance proc_ret : MRet proc := fun A a => Proc [] (Returned a).
#[global] Instance proc_bind : MBind proc := fun A B f m =>
  match m with
  | Proc t (Returned a) =>
      match f a with
      | Proc t' r => Proc (t ++ t') r
      end
  | Proc t (Uncaught e) => Proc t (Uncaught e)
  | Proc t (Exited code) => Proc t (Exited code)
  end.

Definition perform (e : effect) : proc unit := Proc [e] (Returned tt).
Definition throw {A} (e : value) : proc A := Proc [] (Uncaught e).
Definition process_exit {A} (code : value) : proc A := Proc [] (Exited code).

Definition lift {A} (c : completion A) : proc A :=
  match c with
  | Normal a => mret a
  | Throw e => throw e
  end.

(** [try { body } catch (err) { handler err }] *)
Definition try_catch {A} (body : proc A) (handler : value -> proc A) : proc A :=
  match body with
  | Proc t (Uncaught err) =>
      match handler err with
      | Proc t' r => Proc (t ++ t') r
      end
  | _ => body
  end.

(** [if (c) { body }] *)
Definition when (c : bool) (body : proc unit) : proc unit :=
  if c then body else mret tt.

(** The object returned by [formatWebpackMessages]. *)
Record Messages : Type := {
  errors : list string;
  warnings : list string;
}.

(** The [stats] argument of the 'done' hook. *)
Record Stats : Type := {
  toJson : value -> value;
}.

Record Urls : Type := {
  lanUrlForTerminal : value;
  localUrlForTerminal : value;
}.

(** The argument of [createWebpackCompiler].  [onFinished] is called for its
    effect only, and recorded as [OnFinished]. *)
Record Options : Type := {
  projectRoot : string;
  appName : string;
  config : value;
  urls : Urls;
  nonInteractive : value;
  useYarn : value;
  webpack : value -> completion value;
}.

Class Imports : Type := {
  chalk : list string -> string -> string;      (* chalk.s1.s2...(text) *)
  formatWebpackMessages : value -> Messages;
  ToString : value -> string;                   (* conversion in a template literal *)
}.

Definition CONSOLE_TAG : string := "webpack".

(** The line feed of the JavaScript string literals. *)
Definition nl : string := String "010"%char EmptyString.

(** [array.join(separator)] for an array of strings. *)
Fixpoint join (separator : string) (items : list string) : string :=
  match items with
  | [] => ""
  | [x] => x
  | x :: rest => x +:+ separator +:+ join separator rest
  end.

Definition log (projectRoot : string) (message : value) : proc unit :=
  perform (ProjectLog Info projectRoot CONSOLE_TAG message).

Definition logWarning (projectRoot : string) (message : value) : proc unit :=
  perform (ProjectLog Warning projectRoot CONSOLE_TAG message).

Definition logError (projectRoot : string) (message : value) : proc unit :=
  perform (ProjectLog Error projectRoot CONSOLE_TAG message).

Definition clearConsole : proc unit := perform ClearConsole.

Section WithImports.
Context `{imports : Imports}.

Definition printInstructions (projectRoot appName : string) (urls : Urls)
    (useYarn : value) : proc unit :=
  let _log := fun message : string => log projectRoot (VStr message) in
  _log " ";;
  _log ("You can now view " +:+ chalk ["bold"] appName +:+ " in the browser.");;
  _log " ";;
  (if truthy (lanUrlForTerminal urls) then
     _log ("  " +:+ chalk ["bold"] "Local:" +:+ "            "
           +:+ ToString (localUrlForTerminal urls));;
     _log ("  " +:+ chalk ["bold"] "On Your Network:" +:+ "  "
           +:+ ToString (lanUrlForTerminal urls));;
     _log " "
   else
     _log ("  " +:+ ToString (localUrlForTerminal urls)));;
  _log "Note that the development build is not optimized.";;
  _log ("To create a production build, use " +:+ chalk ["bold"] "expo build:web" +:+ ".");;
  _log " ".

Definition printPreviewNotice (projectRoot : string) : proc unit :=
  log projectRoot (VStr " ");;
  log projectRoot
    (VStr (chalk ["underline"; "yellow"]
             "Web support in Expo is experimental and subject to breaking changes."));;
  log projectRoot
    (VStr (chalk ["underline"; "yellow"] "Do not use this in production yet.")).

(** [devSocket.warnings] and [devSocket.errors]: the whole array is handed
    to the logger. *)
Definition devSocket_warnings (o : Options) (warnings : list string) : proc unit :=
  logWarning (projectRoot o) (VArr (VStr <$> warnings)).

Definition devSocket_errors (o : Options) (errors : list string) : proc unit :=
  logError (projectRoot o) (VArr (VStr <$> errors)).

(** [compiler.hooks.<hook>.tap(name, handler)].  The handlers themselves are
    [invalid_handler] and [done_handler] below. *)
Definition tap (compiler : value) (hook name : string) : proc unit :=
  hooks ← lift (get compiler "hooks");
  h ← lift (get hooks hook);
  f ← lift (get h "tap");
  match f with
  | VRef _ => perform (HookTap hook name)
  | _ => throw TypeError
  end.

(** The handler tapped on the 'invalid' hook. *)
Definition invalid_handler (o : Options) : proc unit :=
  when (negb (truthy (nonInteractive o))) clearConsole;;
  log (projectRoot o) (VStr (chalk ["white"] (nl +:+ "Compiling..."))).

(** [array.length] as a condition. *)
Definition nonempty {A} (l : list A) : bool := negb (Nat.eqb (length l) 0).

(** The handler tapped on the 'done' hook.  [isFirstCompile] is the variable
    of the enclosing call that the handler reads and assigns: it comes in as
    an argument and its new value is returned.  The call of the module's
    [printInstructions] is the argument [instructions]. *)
Definition done_handler_with
    (instructions : string -> string -> Urls -> value -> proc unit)
    (o : Options) (isFirstCompile : bool) (stats : Stats) : proc bool :=
  when (negb (truthy (nonInteractive o))) clearConsole;;
  let statsData :=
    toJson stats (obj [ ("all", VBool false);
                        ("warnings", VBool true);
                        ("errors", VBool true) ]) in
  let messages := formatWebpackMessages statsData in
  (if Nat.ltb 0 (length (errors messages)) then
     devSocket_errors o (errors messages)
   else if Nat.ltb 0 (length (warnings messages)) then
     devSocket_warnings o (warnings messages)
   else mret tt);;
  log (projectRoot o) (VStr " ");;
  let isSuccessful :=
    negb (nonempty (errors messages)) && negb (nonempty (warnings messages)) in
  when isSuccessful
    (log (projectRoot o) (VStr (chalk ["bold"; "cyan"] "Compiled successfully!"));;
     printPreviewNotice (projectRoot o));;
  when (isSuccessful && (negb (truthy (nonInteractive o)) || isFirstCompile))
    (instructions (projectRoot o) (appName o) (urls o) (useYarn o));;
  perform OnFinished;;
  let isFirstCompile := false in
  if nonempty (errors messages) then
    let errors :=
      if Nat.ltb 1 (length (errors messages)) then take 1 (errors messages)
      else errors messages in
    logError (projectRoot o) (VStr (chalk ["red"] ("Failed to compile." +:+ nl)));;
    logError (projectRoot o) (VStr (join (nl +:+ nl) errors));;
    mret isFirstCompile
  else
    when (nonempty (warnings messages))
      (logWarning (projectRoot o)
         (VStr (chalk ["yellow"] ("Compiled with warnings." +:+ nl)));;
       logWarning (projectRoot o) (VStr (join (nl +:+ nl) (warnings messages)));;
       logWarning (projectRoot o)
         (VStr (nl +:+ "Search for the "
                +:+ chalk ["underline"] (chalk ["yellow"] "keywords")
                +:+ " to learn more about each warning."));;
       logWarning (projectRoot o)
         (VStr ("To ignore, add " +:+ chalk ["cyan"] "// eslint-disable-next-line"
                +:+ " to the line before." +:+ nl)));;
    mret isFirstCompile.

Definition done_handler : Options -> bool -> Stats -> proc bool :=
  done_handler_with printInstructions.

(** The 'done' hook fires for each of [events] in turn, with [handler]
    tapped on it; the flag is threaded from one firing to the next.  The
    result lists the trace of each firing. *)
Fixpoint fire (handler : bool -> Stats -> proc bool) (isFirstCompile : bool)
    (events : list Stats) : list (list effect) :=
  match events with
  | [] => []
  | stats :: rest =>
      let run := handler isFirstCompile stats in
      trace run ::
        fire handler
          (match result run with Returned b => b | _ => isFirstCompile end) rest
  end.

Definition fire_done (o : Options) : bool -> list Stats -> list (list effect) :=
  fire (done_handler o).

(** [createWebpackCompiler]: returns the compiler, together with the initial
    value of [isFirstCompile] that the tapped 'done' handler starts from. *)
Definition createWebpackCompiler (o : Options) : proc (value * bool) :=
  compiler ←
    try_catch (lift (webpack o (config o)))
      (fun err =>
         logError (projectRoot o) (VStr " ");;
         logError (projectRoot o) (VStr "Failed to compile");;
         logError (projectRoot o) (VStr " ");;
         message ← lift (get err "message");
         logError (projectRoot o) (js_or message err);;
         logError (projectRoot o) (VStr " ");;
         process_exit (VNum 1));
  tap compiler "invalid" "invalid";;
  let isFirstCompile := true in
  tap compiler "done" "done";;
  mret (compiler, isFirstCompile).

End WithImports.

End WebpackCompiler.

(** ** scripts/generateChangelog.js *)

Module GenerateChangelog.

Inductive effect : Type :=
| ConsoleLog (message : value)
| Spawn (command : value) (args : list value) (options : value).

(** The end of the current process, with the code given to [process.exit]. *)
Inductive termination : Type :=
| Terminate (code : value).

(** [process.exit] used as a listener: it is called with the arguments of
    the event and takes the first as the exit code. *)
Definition process_exit (args : list value) : termination :=
  Terminate (nth 0 args VUndefined).

Class Runtime : Type := {
  path_join : list value -> value;
  __dirname : value;
  process_env : value;
}.

(** A run of the script: what it did, and the listeners it left on the
    child process, by event name. *)
Record Run : Type := {
  effects : list effect;
  listeners : list (string * (list value -> termination));
}.

Section WithRuntime.
Context `{runtime : Runtime}.

Definition lerna : value :=
  path_join [ __dirname; VStr "../node_modules/.bin/lerna" ].

Definition script : Run := {|
  effects :=
    [ ConsoleLog (VStr "generating changelog...");
      Spawn lerna
        [ VStr "version"; VStr "--conventional-commits" ]
        (obj [ ("stdio", VStr "inherit");
               ("env", Object_assign (obj []) process_env) ]) ];
  listeners := [ ("exit", process_exit) ];
|}.

(** The child process emits [event] with [args]: each listener of that event
    is called. *)
Definition emit (r : Run) (event : string) (args : list value) : list termination :=
  (fun l => snd l args) <$> filter (fun l => fst l = event) (listeners r).

End WithRuntime.

End GenerateChangelog.

(** ** Stand-ins for the imports, for running the definitions

    The imported functions are outside the modelled files.  To evaluate the
    definitions on concrete inputs, [Sample] fixes simple stand-ins for them:
    a [chalk] that leaves the text unstyled, a [formatWebpackMessages] that
    takes the error and warning strings of the stats as they are, a
    [locations.absolute] that joins its arguments under [/app], a
    [path.join] that joins its arguments and leaves [..] in place. *)

Module Sample.

Definition strings_of (v : value) : list string :=
  match v with
  | VArr items =>
      omap (fun x => match x with VStr s => Some s | _ => None end) items
  | _ => []
  end.

Definition text_of (v : value) : string :=
  match v with
  | VStr s => s
  | VUndefined => "undefined"
  | VNull => "null"
  | VBool true => "true"
  | VBool false => "false"
  | VNum n => pretty n
  | _ => "[object Object]"
  end.

Definition locations (projectRoot : value) : WebpackCommon.Locations := {|
  WebpackCommon.root := projectRoot;
  WebpackCommon.production_manifest := VStr "/app/web-build/manifest.json";
  WebpackCommon.production_folder := VStr "/app/web-build";
  WebpackCommon.template_folder := VStr "/app/web";
  WebpackCommon.includeModule := fun name => VStr ("/app/node_modules/" +:+ name);
  WebpackCommon.absolute := fun parts =>
    VStr (WebpackCompiler.join "/" ("/app" :: (text_of <$> parts)));
|}.

(** A property that is left out or [true] selects the default
    configuration, a falsy one switches the feature off, anything else is
    taken as the configuration. *)
Definition override (property config : value) : value :=
  match property with
  | VUndefined | VBool true => config
  | _ => if truthy property then property else VBool false
  end.

#[local] Instance common_imports : WebpackCommon.Imports := {|
  WebpackCommon.createEnvironmentConstants := fun config manifest => obj [];
  WebpackCommon.createClientEnvironment := fun locations publicPath manifest => obj [];
  WebpackCommon.createIndexHTMLFromAppJSON := fun env config locations =>
    VNew "HtmlWebpackPlugin" [];
  WebpackCommon.overrideWithPropertyOrConfig := override;
  WebpackCommon.getLocations := locations;
  WebpackCommon.chalk := fun styles text => text;
  WebpackCommon.ToString := text_of;
  WebpackCommon.__dirname := VStr "/app/node_modules/@expo/webpack-config/webpack";
|}.

#[local] Instance compiler_imports : WebpackCompiler.Imports := {|
  WebpackCompiler.chalk := fun styles text => text;
  WebpackCompiler.formatWebpackMessages := fun statsData =>
    {| WebpackCompiler.errors := strings_of (prop statsData "errors");
       WebpackCompiler.warnings := strings_of (prop statsData "warnings") |};
  WebpackCompiler.ToString := text_of;
|}.

(** Stats of a compile with the given errors and warnings. *)
Definition stats (errors warnings : list string) : WebpackCompiler.Stats := {|
  WebpackCompiler.toJson := fun options =>
    obj [ ("errors", VArr (VStr <$> errors));
          ("warnings", VArr (VStr <$> warnings)) ];
|}.

(** A compiler object with the two hooks. *)
Definition compiler : value :=
  obj [ ("hooks", obj [ ("invalid", obj [ ("tap", VRef "tap") ]);
                        ("done", obj [ ("tap", VRef "tap") ]) ]) ].

Definition options (nonInteractive : value)
    (webpack : value -> completion value) : WebpackCompiler.Options := {|
  WebpackCompiler.projectRoot := "/app";
  WebpackCompiler.appName := "app";
  WebpackCompiler.config := obj [];
  WebpackCompiler.urls :=
    {| WebpackCompiler.lanUrlForTerminal := VUndefined;
       WebpackCompiler.localUrlForTerminal := VStr "http://localhost:19006" |};
  WebpackCompiler.nonInteractive := nonInteractive;
  WebpackCompiler.useYarn := VBool false;
  WebpackCompiler.webpack := webpack;
|}.

#[local] Instance runtime : GenerateChangelog.Runtime := {|
  GenerateChangelog.path_join := fun parts => VStr (WebpackCompiler.join "/" (text_of <$> parts));
  GenerateChangelog.__dirname := VStr "/repo/scripts";
  GenerateChangelog.process_env := obj [ ("PATH", VStr "/usr/bin") ];
|}.

(** An [env] argument for the configuration builder. *)
Definition env (production : value) (web : list (string * value)) : value :=
  obj [ ("projectRoot", VStr "/app");
        ("production", production);
        ("development", VBool (negb (truthy production)));
        ("config", obj [ ("web", obj web) ]) ].

End Sample.

(** ** Vocabulary of the statements *)

Module Terms.
Import WebpackCommon.

Section WithImports.
Context `{imports : Imports}.

(** The arguments on which the exported function runs to the end: an [env]
    whose [config] and [config.web] are there. *)
Definition well_formed (env : value) : Prop :=
  nullish env = false /\
  nullish (prop env "config") = false /\
  nullish (prop (prop env "config") "web") = false.

(** [config.web] of an [env]. *)
Definition webOf (env : value) : value := prop (prop env "config") "web".

(** The service worker configuration and the report configuration that the
    exported function computes from its argument. *)
Definition serviceWorkerOf (env : value) : value :=
  overrideWithPropertyOrConfig
    (if truthy (prop env "production") then prop (webOf env) "serviceWorker"
     else VBool false)
    DEFAULT_SERVICE_WORKER.

Definition reportConfigOf (env : value) : value :=
  overrideWithPropertyOrConfig (prop (webOf env) "report") DEFAULT_REPORT_CONFIG.

(** The value assigned to [reportPlugins] for a truthy report
    configuration. *)
Definition reportPluginsOf (locations : Locations) (reportConfig : value)
  : list value :=
  match reportPluginsFor locations reportConfig with
  | Normal l => l
  | Throw _ => []
  end.

End WithImports.

(** An instance of [WorkboxPlugin.GenerateSW], of [CleanWebpackPlugin], of
    [BundleAnalyzerPlugin]. *)
Definition instance_of (ctor : string) (plugin : value) : bool :=
  match plugin with
  | VNew c _ => String.eqb c ctor
  | _ => false
  end.

Definition is_GenerateSW : value -> bool := instance_of "WorkboxPlugin.GenerateSW".

Definition is_report_plugin (plugin : value) : bool :=
  instance_of "CleanWebpackPlugin" plugin || instance_of "BundleAnalyzerPlugin" plugin.

End Terms.

Module CompilerTerms.
Import WebpackCompiler.

Section WithImports.
Context `{imports : Imports}.

(** The messages that the 'done' handler formats from the stats. *)
Definition messagesOf (stats : Stats) : Messages :=
  formatWebpackMessages
    (toJson stats (obj [ ("all", VBool false);
                         ("warnings", VBool true);
                         ("errors", VBool true) ])).

(** The 'done' handler with the call of [printInstructions] left out. *)
Definition done_handler_quiet : Options -> bool -> Stats -> proc bool :=
  done_handler_with (fun _ _ _ _ => mret tt).

End WithImports.

(** The console is cleared first unless [nonInteractive] is truthy. *)
Definition clears (o : Options) : list effect :=
  if truthy (nonInteractive o) then [] else [ClearConsole].

Definition logged (lvl : level) (o : Options) (message : value) : effect :=
  ProjectLog lvl (projectRoot o) CONSOLE_TAG message.

(** The lines of a successful compile, before the instructions. *)
Definition success_lines `{imports : Imports} (o : Options) : list effect :=
  [ logged Info o (VStr " ");
    logged Info o (VStr (chalk ["bold"; "cyan"] "Compiled successfully!"));
    logged Info o (VStr " ");
    logged Info o
      (VStr (chalk ["underline"; "yellow"]
               "Web support in Expo is experimental and subject to breaking changes."));
    logged Info o
      (VStr (chalk ["underline"; "yellow"] "Do not use this in production yet.")) ].

(** What [devSocket] hands to the logger: the whole error list, or without
    errors the whole warning list. *)
Definition devSocket_lines (o : Options) (m : Messages) : list effect :=
  match errors m, warnings m with
  | _ :: _, _ => [ logged Error o (VArr (VStr <$> errors m)) ]
  | [], _ :: _ => [ logged Warning o (VArr (VStr <$> warnings m)) ]
  | [], [] => []
  end.

(** The summary at the end of the handler: the failure line and the first
    error, or without errors the four warning lines. *)
Definition summary_lines `{imports : Imports} (o : Options) (m : Messages)
  : list effect :=
  match errors m, warnings m with
  | e :: _, _ =>
      [ logged Error o (VStr (chalk ["red"] ("Failed to compile." +:+ nl)));
        logged Error o (VStr e) ]
  | [], _ :: _ =>
      [ logged Warning o (VStr (chalk ["yellow"] ("Compiled with warnings." +:+ nl)));
        logged Warning o (VStr (join (nl +:+ nl) (warnings m)));
        logged Warning o
          (VStr (nl +:+ "Search for the "
                 +:+ chalk ["underline"] (chalk ["yellow"] "keywords")
                 +:+ " to learn more about each warning."));
        logged Warning o
          (VStr ("To ignore, add " +:+ chalk ["cyan"] "// eslint-disable-next-line"
                 +:+ " to the line before." +:+ nl)) ]
  | [], [] => []
  end.

(** The effect hands the text [x] to the logger, as the message or as an
    element of the message. *)
Definition shows (x : string) (e : effect) : bool :=
  match e with
  | ProjectLog _ _ _ (VStr s) => String.eqb s x
  | ProjectLog _ _ _ (VArr items) =>
      existsb (fun v => match v with VStr s => String.eqb s x | _ => false end) items
  | _ => false
  end.

(** Of the errors [errs], none but the first is shown by an effect of [t]. *)
Definition only_first_error_shown (errs : list string) (t : list effect) : Prop :=
  forall x, In x errs -> existsb (shows x) t = true -> head errs = Some x.

(** Every message of [m], error or warning, is shown by an effect of [t]. *)
Definition messages_printed (m : Messages) (t : list effect) : Prop :=
  (forall x, In x (errors m) -> existsb (shows x) t = true) /\
  (forall x, In x (warnings m) -> existsb (shows x) t = true).

Definition is_warning (e : effect) : bool :=
  match e with
  | ProjectLog Warning _ _ _ => true
  | _ => false
  end.

(** The effect is a message logged as an error or as a warning. *)
Definition error_or_warning_text (e : effect) : bool :=
  match e with
  | ProjectLog Error _ _ _ | ProjectLog Warning _ _ _ => true
  | _ => false
  end.

Definition is_OnFinished (e : effect) : bool :=
  match e with
  | OnFinished => true
  | _ => false
  end.

Definition is_log (e : effect) : bool :=
  match e with
  | ProjectLog _ _ _ _ => true
  | _ => false
  end.

(** No error or warning text comes before a call of [onFinished]. *)
Definition onFinished_first (t : list effect) : Prop :=
  forall pre post,
    t = pre ++ OnFinished :: post -> existsb error_or_warning_text pre = false.

(** Every effect is a cleared console, a logged message or the call of
    [onFinished]: nothing is tapped, compiled or started again. *)
Definition console_only (e : effect) : bool :=
  match e with
  | ClearConsole | ProjectLog _ _ _ _ | OnFinished => true
  | HookTap _ _ => false
  end.

End CompilerTerms.

(** ** Further vocabulary *)

Module MoreTerms.

(** The constructor of a plugin built with [new]. *)
Definition ctor_of (plugin : value) : option string :=
  match plugin with
  | VNew c _ => Some c
  | _ => None
  end.

(** [compiler.hooks.<hook>.tap] is there and can be called. *)
Definition tappable (compiler : value) (hook : string) : bool :=
  match prop (prop (prop compiler "hooks") hook) "tap" with
  | VRef _ => true
  | _ => false
  end.

Definition is_clear (e : WebpackCompiler.effect) : bool :=
  match e with
  | WebpackCompiler.ClearConsole => true
  | _ => false
  end.

Definition is_info (e : WebpackCompiler.effect) : bool :=
  match e with
  | WebpackCompiler.ProjectLog WebpackCompiler.Info _ _ _ => true
  | _ => false
  end.

Definition is_error (e : WebpackCompiler.effect) : bool :=
  match e with
  | WebpackCompiler.ProjectLog WebpackCompiler.Error _ _ _ => true
  | _ => false
  end.

(** The number of calls of [onFinished] in a trace. *)
Definition onFinished_calls (t : list WebpackCompiler.effect) : nat :=
  length (filter (fun e => CompilerTerms.is_OnFinished e = true) t).

End MoreTerms.

(** * Properties *)

(** ** Reading properties *)

Lemma get_prop (v : value) (k : string) :
  nullish v = false -> get v k = Normal (prop v k).
Proof. destruct v; simpl; intros Hn; try discriminate; reflexivity. Qed.

Lemma truthy_not_nullish (v : value) : truthy v = true -> nullish v = false.
Proof. destruct v; simpl; intros Ht; try discriminate; reflexivity. Qed.

Lemma get_nullish (v : value) (k : string) :
  nullish v = true -> get v k = Throw TypeError.
Proof. destruct v; simpl; intros Hn; try discriminate; reflexivity. Qed.

Lemma is_undefined_spec (v : value) : is_undefined v = true <-> v = VUndefined.
Proof. destruct v; simpl; split; intros Hu; try discriminate; reflexivity. Qed.

(** ** getDevtool *)

Section GetDevtool.
Import WebpackCommon.

(** C2.  For an [env] and a web config that are not [undefined] or [null]:
    in production [getDevtool] returns [webConfig.devtool] when that is not
    [undefined] and ['source-map'] when it is; outside production it returns
    ['cheap-module-source-map'] when [env.development] is truthy and
    [undefined] when it is not. *)
Theorem getDevtool_by_environment (env webConfig : value) :
  nullish env = false ->
  nullish webConfig = false ->
  (truthy (prop env "production") = true ->
   prop webConfig "devtool" <> VUndefined ->
   getDevtool env webConfig = Normal (prop webConfig "devtool")) /\
  (truthy (prop env "production") = true ->
   prop webConfig "devtool" = VUndefined ->
   getDevtool env webConfig = Normal (VStr "source-map")) /\
  (truthy (prop env "production") = false ->
   truthy (prop env "development") = true ->
   getDevtool env webConfig = Normal (VStr "cheap-module-source-map")) /\
  (truthy (prop env "production") = false ->
   truthy (prop env "development") = false ->
   getDevtool env webConfig = Normal VUndefined).
Proof.
  intros Henv Hweb. unfold getDevtool.
  rewrite !(get_prop env) by assumption.
  rewrite (get_prop webConfig) by assumption. cbn.
  repeat split.
  - intros -> Hd.
    destruct (is_undefined (prop webConfig "devtool")) eqn:Hu; [|reflexivity].
    apply is_undefined_spec in Hu. contradiction.
  - intros -> ->. reflexivity.
  - intros -> ->. reflexivity.
  - intros -> ->. reflexivity.
Qed.

(** At concrete inputs: a production build that sets [devtool] to [false],
    one that leaves it out, a development build, and a build with no flag. *)
Lemma getDevtool_by_environment_witness :
  getDevtool (obj [("production", VBool true)]) (obj [("devtool", VBool false)])
    = Normal (VBool false) /\
  getDevtool (obj [("production", VBool true)]) (obj []) = Normal (VStr "source-map") /\
  getDevtool (obj [("development", VBool true)]) (obj [])
    = Normal (VStr "cheap-module-source-map") /\
  getDevtool (obj []) (obj []) = Normal VUndefined.
Proof.
  split; [|split; [|split]].
  - apply (getDevtool_by_environment
             (obj [("production", VBool true)]) (obj [("devtool", VBool false)]));
      [reflexivity | reflexivity | reflexivity | discriminate].
  - apply (getDevtool_by_environment (obj [("production", VBool true)]) (obj []));
      reflexivity.
  - apply (getDevtool_by_environment (obj [("development", VBool true)]) (obj []));
      reflexivity.
  - apply (getDevtool_by_environment (obj []) (obj [])); reflexivity.
Defined.

End GetDevtool.

(** [dquotes] and [nl] give the characters meant. *)
Example dquotes_quote :
  WebpackCommon.dquotes "'x'" = String (ascii_of_nat 34) (String "x" (String (ascii_of_nat 34) ""))
  /\ WebpackCompiler.nl = String (ascii_of_nat 10) "".
Proof. split; reflexivity. Qed.

(** ** The configuration builder *)

Section ConfigurationBuilder.
Import WebpackCommon Terms.
Context `{imports : Imports}.

Lemma reportPluginsFor_returns (locations : Locations) (reportConfig : value) :
  nullish reportConfig = false ->
  let reportDir := js_or (prop reportConfig "path") (VStr "web-report") in
  reportPluginsFor locations reportConfig =
  Normal
    [ VNew "CleanWebpackPlugin"
        [ VArr [ absolute locations [reportDir] ];
          obj [ ("root", root locations);
                ("dry", VBool false);
                ("verbose", prop reportConfig "verbose") ] ];
      VNew "BundleAnalyzerPlugin"
        [ obj_spread_last
            [ ("analyzerMode", VStr "static");
              ("defaultSizes", VStr "gzip");
              ("generateStatsFile", VBool true);
              ("openAnalyzer", VBool false);
              ("logLevel", cond (prop reportConfig "verbose") (VStr "info") (VStr "silent"));
              ("statsFilename",
                 absolute locations
                   [reportDir; js_or (prop reportConfig "statsFilename") (VStr "stats.json")]);
              ("reportFilename",
                 absolute locations
                   [reportDir; js_or (prop reportConfig "reportFilename") (VStr "report.html")]) ]
            reportConfig ] ].
Proof.
  intros Hn reportDir. unfold reportPluginsFor.
  rewrite !(get_prop reportConfig) by assumption. reflexivity.
Qed.

Lemma getDevtool_returns (env webConfig : value) :
  nullish env = false -> nullish webConfig = false ->
  exists devtool, getDevtool env webConfig = Normal devtool.
Proof.
  intros Henv Hweb. unfold getDevtool.
  rewrite !(get_prop env), (get_prop webConfig) by assumption. cbn.
  destruct (truthy (prop env "production")).
  - destruct (negb (is_undefined (prop webConfig "devtool"))); eexists; reflexivity.
  - destruct (truthy (prop env "development")); eexists; reflexivity.
Qed.

(** The exported function returns, and its plugin list is made of three
    leading plugins, the scope analysis plugin, the service worker plugin
    when the service worker configuration is truthy, the manifest, module
    resolution and progress plugins, and the report plugins when the report
    configuration is truthy. *)
Lemma module_exports_plugins (env argv : value) :
  well_formed env ->
  let locations := getLocations (prop env "projectRoot") in
  exists (cfg : Configuration) (interpolate define manifest progress : list value),
    module_exports env argv = Normal cfg /\
    plugins cfg =
      [ createIndexHTMLFromAppJSON env (prop env "config") locations;
        VNew "InterpolateHtmlPlugin" interpolate;
        VNew "webpack.DefinePlugin" define;
        VNew "WebpackDeepScopeAnalysisPlugin" [] ]
      ++ (if truthy (serviceWorkerOf env)
          then [ VNew "WorkboxPlugin.GenerateSW"
                   [ generateSWOptions (prop (webOf env) "publicPath")
                       (serviceWorkerOf env) ] ]
          else [])
      ++ [ VNew "WebpackPWAManifestPlugin" manifest;
           VNew "ModuleNotFoundPlugin" [ root locations ];
           VNew "ProgressBarPlugin" progress ]
      ++ (if truthy (reportConfigOf env)
          then reportPluginsOf locations (reportConfigOf env)
          else []).
Proof.
  intros (Henv & Hconfig & Hweb) locations.
  unfold module_exports.
  assert (is_undefined env = false) as -> by (destruct env; try reflexivity; discriminate).
  rewrite !(get_prop env) by assumption. cbn.
  rewrite (get_prop (prop env "config")) by assumption. cbn.
  fold (webOf env).
  rewrite !(get_prop (webOf env)) by assumption. cbn.
  destruct (getDevtool_returns env (webOf env) Henv Hweb) as [d Hd].
  unfold serviceWorkerOf, reportConfigOf. fold locations.
  set (reportConfig :=
         overrideWithPropertyOrConfig (prop (webOf env) "report") DEFAULT_REPORT_CONFIG).
  assert ((if truthy reportConfig then reportPluginsFor locations reportConfig
           else mret []) =
          Normal (if truthy reportConfig then reportPluginsOf locations reportConfig
                  else [])) as ->.
  { destruct (truthy reportConfig) eqn:Ht; [|reflexivity].
    unfold reportPluginsOf.
    rewrite (reportPluginsFor_returns locations reportConfig)
      by (apply truthy_not_nullish, Ht).
    reflexivity. }
  destruct (truthy (prop env "production")); cbn; rewrite Hd; cbn;
    match goal with
    | |- context [truthy (overrideWithPropertyOrConfig ?p DEFAULT_SERVICE_WORKER)] =>
        destruct (truthy (overrideWithPropertyOrConfig p DEFAULT_SERVICE_WORKER))
    end;
    do 5 eexists; split; reflexivity.
Qed.

Lemma reportPluginsOf_eq (locations : Locations) (reportConfig : value) :
  nullish reportConfig = false ->
  reportPluginsFor locations reportConfig
  = Normal (reportPluginsOf locations reportConfig).
Proof.
  intros Hn. unfold reportPluginsOf.
  rewrite (reportPluginsFor_returns locations reportConfig Hn). reflexivity.
Qed.

Lemma existsb_GenerateSW_report (locations : Locations) (reportConfig : value) :
  existsb is_GenerateSW
    (if truthy reportConfig then reportPluginsOf locations reportConfig else [])
  = false.
Proof.
  destruct (truthy reportConfig) eqn:Ht; [|reflexivity].
  unfold reportPluginsOf.
  rewrite (reportPluginsFor_returns locations reportConfig)
    by (apply truthy_not_nullish, Ht).
  reflexivity.
Qed.

(** C3.  For arguments the builder accepts, and imports where
    [overrideWithPropertyOrConfig(false, DEFAULT_SERVICE_WORKER)] is falsy and
    the index HTML plugin is not a [GenerateSW]: the returned plugin list has
    a [WorkboxPlugin.GenerateSW] exactly when [env.production] is truthy and
    [overrideWithPropertyOrConfig(config.web.serviceWorker,
    DEFAULT_SERVICE_WORKER)] is truthy; outside production it has none,
    whatever [config.web.serviceWorker] is. *)
Theorem service_worker_plugin_iff (env argv : value) :
  well_formed env ->
  truthy (overrideWithPropertyOrConfig (VBool false) DEFAULT_SERVICE_WORKER) = false ->
  is_GenerateSW
    (createIndexHTMLFromAppJSON env (prop env "config")
       (getLocations (prop env "projectRoot"))) = false ->
  exists cfg : Configuration,
    module_exports env argv = Normal cfg /\
    (existsb is_GenerateSW (plugins cfg) = true <->
     truthy (prop env "production") = true /\
     truthy (overrideWithPropertyOrConfig
               (prop (webOf env) "serviceWorker") DEFAULT_SERVICE_WORKER) = true) /\
    (truthy (prop env "production") = false ->
     existsb is_GenerateSW (plugins cfg) = false).
Proof.
  intros Hwf Hoff Hindex.
  destruct (module_exports_plugins env argv Hwf)
    as (cfg & interpolate & define & manifest & progress & Hcfg & Hplugins).
  exists cfg. split; [exact Hcfg|].
  assert (existsb is_GenerateSW (plugins cfg) = truthy (serviceWorkerOf env)) as Hsw.
  { rewrite Hplugins, !existsb_app, existsb_GenerateSW_report.
    cbn [existsb]. rewrite Hindex.
    destruct (truthy (serviceWorkerOf env)); reflexivity. }
  rewrite Hsw. unfold serviceWorkerOf.
  destruct (truthy (prop env "production")).
  - split; [|intros; discriminate]. split; [intros Ht; split; [reflexivity|exact Ht]|].
    intros [_ Ht]. exact Ht.
  - rewrite Hoff. split; [|reflexivity]. split; [intros; discriminate|].
    intros [Hp _]. discriminate.
Qed.

(** What the analyzer options hold under a key that the report configuration
    has as an own property: the spread at the end of the literal wins. *)
Lemma prop_obj_spread_last (fields : list (string * value)) (v x : value) (k : string) :
  own_props v !! k = Some x ->
  prop (obj_spread_last fields v) k = x.
Proof.
  intros Hk. unfold prop, obj_spread_last, get.
  erewrite lookup_union_Some_l by exact Hk. reflexivity.
Qed.

(** And under a key that it does not have: the literal's own entry stays. *)
Lemma prop_obj_spread_last_None (fields : list (string * value)) (v : value) (k : string) :
  own_props v !! k = None ->
  prop (obj_spread_last fields v) k = prop (obj fields) k.
Proof.
  intros Hk. unfold prop, obj_spread_last, obj, get.
  rewrite lookup_union_r by exact Hk. reflexivity.
Qed.

(** C4, on the code: when the report configuration carries its own
    [statsFilename] and [reportFilename], as [DEFAULT_REPORT_CONFIG] does,
    the configuration ends with a [CleanWebpackPlugin] and a
    [BundleAnalyzerPlugin] whose [statsFilename] and [reportFilename] options
    are those two values as they stand, not the paths computed with
    [locations.absolute]: the spread of the report configuration comes last
    in the options literal. *)
Theorem report_filenames_from_spread
    (env argv statsFilename reportFilename : value) :
  well_formed env ->
  truthy (reportConfigOf env) = true ->
  own_props (reportConfigOf env) !! "statsFilename" = Some statsFilename ->
  own_props (reportConfigOf env) !! "reportFilename" = Some reportFilename ->
  exists (cfg : Configuration) (before cleanArgs : list value) (options : value),
    module_exports env argv = Normal cfg /\
    plugins cfg =
      before ++ [ VNew "CleanWebpackPlugin" cleanArgs;
                  VNew "BundleAnalyzerPlugin" [options] ] /\
    prop options "statsFilename" = statsFilename /\
    prop options "reportFilename" = reportFilename.
Proof.
  intros Hwf Ht Hstats Hreport.
  destruct (module_exports_plugins env argv Hwf)
    as (cfg & interpolate & define & manifest & progress & Hcfg & Hplugins).
  rewrite Ht in Hplugins. unfold reportPluginsOf in Hplugins.
  rewrite (reportPluginsFor_returns _ _ (truthy_not_nullish _ Ht)) in Hplugins.
  rewrite !app_assoc in Hplugins.
  do 4 eexists. split; [exact Hcfg|]. split; [exact Hplugins|].
  split; apply prop_obj_spread_last; assumption.
Qed.

(** X5.  The parts of C4 that the code does satisfy: the report plugins are there
    exactly when the report configuration is truthy, they are the last two
    plugins, a [CleanWebpackPlugin] on [locations.absolute(reportDir)] and a
    [BundleAnalyzerPlugin]; the file names of the analyzer are resolved inside
    the report directory when the report configuration has no
    [statsFilename] and no [reportFilename] of its own. *)
Lemma report_plugins_when_enabled (env argv : value) :
  well_formed env ->
  is_report_plugin
    (createIndexHTMLFromAppJSON env (prop env "config")
       (getLocations (prop env "projectRoot"))) = false ->
  let locations := getLocations (prop env "projectRoot") in
  let reportConfig := reportConfigOf env in
  let reportDir := js_or (prop reportConfig "path") (VStr "web-report") in
  exists (cfg : Configuration) (before : list value),
    module_exports env argv = Normal cfg /\
    existsb is_report_plugin before = false /\
    (truthy reportConfig = false -> plugins cfg = before) /\
    (truthy reportConfig = true ->
     exists cleanOptions options : value,
       plugins cfg =
         before ++ [ VNew "CleanWebpackPlugin"
                       [ VArr [ absolute locations [reportDir] ]; cleanOptions ];
                     VNew "BundleAnalyzerPlugin" [options] ] /\
       (own_props reportConfig !! "statsFilename" = None ->
        prop options "statsFilename"
        = absolute locations
            [reportDir; js_or (prop reportConfig "statsFilename") (VStr "stats.json")]) /\
       (own_props reportConfig !! "reportFilename" = None ->
        prop options "reportFilename"
        = absolute locations
            [reportDir; js_or (prop reportConfig "reportFilename") (VStr "report.html")])).
Proof.
  intros Hwf Hindex locations reportConfig reportDir.
  destruct (module_exports_plugins env argv Hwf)
    as (cfg & interpolate & define & manifest & progress & Hcfg & Hplugins).
  fold locations in Hplugins. fold reportConfig in Hplugins.
  rewrite !app_assoc in Hplugins.
  eexists cfg, _. split; [exact Hcfg|]. split; [|split]; cycle 1.
  - intros Hf. rewrite Hf, app_nil_r in Hplugins. exact Hplugins.
  - intros Ht. rewrite Ht in Hplugins. unfold reportPluginsOf in Hplugins.
    rewrite (reportPluginsFor_returns _ _ (truthy_not_nullish _ Ht)) in Hplugins.
    do 2 eexists. split; [exact Hplugins|].
    split; intros Hnone; rewrite (prop_obj_spread_last_None _ _ _ Hnone); reflexivity.
  - rewrite !existsb_app. cbn [existsb]. subst locations. rewrite Hindex.
    destruct (truthy (serviceWorkerOf env)); reflexivity.
Qed.

End ConfigurationBuilder.

Section ConfigurationBuilderRuns.
Import WebpackCommon Terms.

(** A production build with the sample imports and the service worker left
    to its default, and a development build that asks for a service worker. *)
Lemma service_worker_plugin_iff_witness :
  (exists cfg : Configuration,
     module_exports (imports := Sample.common_imports)
       (Sample.env (VBool true) []) VUndefined = Normal cfg /\
     existsb is_GenerateSW (plugins cfg) = true) /\
  (exists cfg : Configuration,
     module_exports (imports := Sample.common_imports)
       (Sample.env (VBool false) [("serviceWorker", VBool true)]) VUndefined
       = Normal cfg /\
     existsb is_GenerateSW (plugins cfg) = false).
Proof.
  split.
  - destruct (service_worker_plugin_iff (imports := Sample.common_imports)
                (Sample.env (VBool true) []) VUndefined)
      as (cfg & Hcfg & Hiff & _).
    + repeat split.
    + reflexivity.
    + reflexivity.
    + exists cfg. split; [exact Hcfg|]. apply Hiff. split; reflexivity.
  - destruct (service_worker_plugin_iff (imports := Sample.common_imports)
                (Sample.env (VBool false) [("serviceWorker", VBool true)]) VUndefined)
      as (cfg & Hcfg & _ & Hdev).
    + repeat split.
    + reflexivity.
    + reflexivity.
    + exists cfg. split; [exact Hcfg|]. apply Hdev. reflexivity.
Defined.

(** With the sample imports and [config.web.report] left out, the report
    configuration is [DEFAULT_REPORT_CONFIG]: the analyzer is given
    ['stats.json'] and ['report.html'], where the paths inside the report
    directory are [/app/web-report/stats.json] and
    [/app/web-report/report.html]. *)
Lemma report_filenames_from_spread_witness :
  (exists (cfg : Configuration) (before cleanArgs : list value) (options : value),
     module_exports (imports := Sample.common_imports) (Sample.env (VBool true) []) VUndefined
       = Normal cfg /\
     plugins cfg =
       before ++ [ VNew "CleanWebpackPlugin" cleanArgs;
                   VNew "BundleAnalyzerPlugin" [options] ] /\
     prop options "statsFilename" = VStr "stats.json" /\
     prop options "reportFilename" = VStr "report.html") /\
  absolute (Sample.locations (VStr "/app")) [VStr "web-report"; VStr "stats.json"]
    = VStr "/app/web-report/stats.json" /\
  absolute (Sample.locations (VStr "/app")) [VStr "web-report"; VStr "report.html"]
    = VStr "/app/web-report/report.html".
Proof.
  split; [|split; reflexivity].
  apply (report_filenames_from_spread (imports := Sample.common_imports)
           (Sample.env (VBool true) []) VUndefined
           (VStr "stats.json") (VStr "report.html")).
  - repeat split.
  - reflexivity.
  - reflexivity.
  - reflexivity.
Defined.


End ConfigurationBuilderRuns.

(** ** The 'done' handler *)

Section DoneHandler.
Import WebpackCompiler CompilerTerms.
Context `{imports : Imports}.

(** With errors: the whole error list goes to the logger, then the blank
    line and [onFinished], then the failure line and the first error. *)
Lemma done_handler_errors
    (instructions : string -> string -> Urls -> value -> proc unit)
    (o : Options) (flag : bool) (stats : Stats) (e : string) (rest : list string) :
  errors (messagesOf stats) = e :: rest ->
  done_handler_with instructions o flag stats =
  Proc (clears o ++
        [ logged Error o (VArr (VStr <$> e :: rest));
          logged Info o (VStr " ");
          OnFinished;
          logged Error o (VStr (chalk ["red"] ("Failed to compile." +:+ nl)));
          logged Error o (VStr e) ])
       (Returned false).
Proof.
  unfold messagesOf. intros He.
  unfold done_handler_with, clears. rewrite He.
  destruct (truthy (nonInteractive o)), rest; reflexivity.
Qed.

(** With warnings and no error: the whole warning list goes to the logger,
    then the blank line and [onFinished], then the four warning lines. *)
Lemma done_handler_warnings
    (instructions : string -> string -> Urls -> value -> proc unit)
    (o : Options) (flag : bool) (stats : Stats) (w : string) (rest : list string) :
  errors (messagesOf stats) = [] ->
  warnings (messagesOf stats) = w :: rest ->
  done_handler_with instructions o flag stats =
  Proc (clears o ++
        [ logged Warning o (VArr (VStr <$> w :: rest));
          logged Info o (VStr " ");
          OnFinished;
          logged Warning o (VStr (chalk ["yellow"] ("Compiled with warnings." +:+ nl)));
          logged Warning o (VStr (join (nl +:+ nl) (w :: rest)));
          logged Warning o
            (VStr (nl +:+ "Search for the "
                   +:+ chalk ["underline"] (chalk ["yellow"] "keywords")
                   +:+ " to learn more about each warning."));
          logged Warning o
            (VStr ("To ignore, add " +:+ chalk ["cyan"] "// eslint-disable-next-line"
                   +:+ " to the line before." +:+ nl)) ])
       (Returned false).
Proof.
  unfold messagesOf. intros He Hw.
  unfold done_handler_with, clears. rewrite He, Hw.
  destruct (truthy (nonInteractive o)); reflexivity.
Qed.

(** A successful compile where the instructions are not due. *)
Lemma done_handler_success_later
    (instructions : string -> string -> Urls -> value -> proc unit)
    (o : Options) (stats : Stats) :
  errors (messagesOf stats) = [] ->
  warnings (messagesOf stats) = [] ->
  truthy (nonInteractive o) = true ->
  done_handler_with instructions o false stats =
  Proc (success_lines o ++ [OnFinished]) (Returned false).
Proof.
  unfold messagesOf. intros He Hw Hn.
  unfold done_handler_with. rewrite He, Hw, Hn. reflexivity.
Qed.

(** A successful compile where they are due, for the module's
    [printInstructions]. *)
Lemma done_handler_success_first (o : Options) (flag : bool) (stats : Stats) :
  errors (messagesOf stats) = [] ->
  warnings (messagesOf stats) = [] ->
  negb (truthy (nonInteractive o)) || flag = true ->
  done_handler o flag stats =
  Proc (clears o ++ success_lines o
        ++ trace (printInstructions (projectRoot o) (appName o) (urls o) (useYarn o))
        ++ [OnFinished])
       (Returned false).
Proof.
  unfold messagesOf. intros He Hw Hdue.
  unfold done_handler, done_handler_with, clears. rewrite He, Hw.
  unfold printInstructions.
  destruct (truthy (nonInteractive o)), flag; try discriminate;
    destruct (truthy (lanUrlForTerminal (urls o))); reflexivity.
Qed.

(** The four ways a run of the handler goes. *)
Lemma done_handler_cases (o : Options) (flag : bool) (stats : Stats) :
  (exists e rest, errors (messagesOf stats) = e :: rest) \/
  (errors (messagesOf stats) = [] /\ exists w rest, warnings (messagesOf stats) = w :: rest) \/
  (errors (messagesOf stats) = [] /\ warnings (messagesOf stats) = [] /\
   negb (truthy (nonInteractive o)) || flag = true) \/
  (errors (messagesOf stats) = [] /\ warnings (messagesOf stats) = [] /\
   truthy (nonInteractive o) = true /\ flag = false).
Proof.
  destruct (errors (messagesOf stats)) as [|e rest]; [|left; eauto].
  right. destruct (warnings (messagesOf stats)) as [|w rest']; [|left; eauto].
  right. destruct (truthy (nonInteractive o)), flag; cbn; auto.
Qed.

Lemma printInstructions_console_only (root app : string) (u : Urls) (yarn : value) :
  forallb console_only (trace (printInstructions root app u yarn)) = true.
Proof.
  unfold printInstructions. destruct (truthy (lanUrlForTerminal u)); reflexivity.
Qed.

Lemma done_handler_result (o : Options) (flag : bool) (stats : Stats) :
  result (done_handler o flag stats) = Returned false.
Proof.
  destruct (done_handler_cases o flag stats)
    as [(e & rest & He) | [(He & w & rest & Hw) | [(He & Hw & Hdue) | (He & Hw & Hn & ->)]]].
  - unfold done_handler. rewrite (done_handler_errors _ o flag stats e rest He). reflexivity.
  - unfold done_handler. rewrite (done_handler_warnings _ o flag stats w rest He Hw).
    reflexivity.
  - rewrite (done_handler_success_first o flag stats He Hw Hdue). reflexivity.
  - unfold done_handler. rewrite (done_handler_success_later _ o stats He Hw Hn).
    reflexivity.
Qed.

(** C5, as the code has it.  Whatever the stats of a 'done' event: the
    handler formats them with [formatWebpackMessages]; when there are errors
    it hands the errors to the logger and logs no warning, also when the
    stats have warnings; without errors it hands the warnings to the logger.
    It performs nothing but console and logger calls and the call of
    [onFinished]; and it returns, without ending the process and without
    throwing. *)
Theorem done_handler_prints_and_returns (o : Options) (flag : bool) (stats : Stats) :
  let run := done_handler o flag stats in
  result run = Returned false /\
  forallb console_only (trace run) = true /\
  (forall e rest, errors (messagesOf stats) = e :: rest ->
     In (logged Error o (VArr (VStr <$> errors (messagesOf stats)))) (trace run) /\
     In (logged Error o (VStr e)) (trace run) /\
     existsb is_warning (trace run) = false) /\
  (forall w rest, errors (messagesOf stats) = [] ->
     warnings (messagesOf stats) = w :: rest ->
     In (logged Warning o (VArr (VStr <$> warnings (messagesOf stats)))) (trace run) /\
     In (logged Warning o (VStr (join (nl +:+ nl) (warnings (messagesOf stats)))))
        (trace run)).
Proof.
  intros run. subst run.
  destruct (done_handler_cases o flag stats)
    as [(e & rest & He) | [(He & w & rest & Hw) | [(He & Hw & Hdue) | (He & Hw & Hn & ->)]]].
  - unfold done_handler. rewrite (done_handler_errors _ o flag stats e rest He).
    cbn [trace result]. rewrite He. unfold clears.
    split; [reflexivity|]. split; [destruct (truthy (nonInteractive o)); reflexivity|].
    split; [|intros; discriminate].
    intros e' rest' [= <- <-].
    destruct (truthy (nonInteractive o)); cbn; auto 10.
  - unfold done_handler. rewrite (done_handler_warnings _ o flag stats w rest He Hw).
    cbn [trace result]. rewrite He, Hw. unfold clears.
    split; [reflexivity|]. split; [destruct (truthy (nonInteractive o)); reflexivity|].
    split; [intros; discriminate|].
    intros w' rest' _ [= <- <-].
    destruct (truthy (nonInteractive o)); cbn; auto 10.
  - rewrite (done_handler_success_first o flag stats He Hw Hdue).
    cbn [trace result]. rewrite He, Hw.
    split; [reflexivity|]. split; [|split; intros; discriminate].
    rewrite !forallb_app, printInstructions_console_only. unfold clears.
    destruct (truthy (nonInteractive o)); reflexivity.
  - unfold done_handler. rewrite (done_handler_success_later _ o stats He Hw Hn).
    cbn [trace result]. rewrite He, Hw.
    split; [reflexivity|]. split; [reflexivity|]. split; intros; discriminate.
Qed.

(** C8, as the code has it.  When the formatted error list is not empty, the
    whole list is handed to the logger once, before [onFinished]; after
    [onFinished] come the 'Failed to compile.' line and the first error only;
    no warning is logged. *)
Theorem done_handler_with_errors (o : Options) (flag : bool) (stats : Stats)
    (e : string) (rest : list string) :
  errors (messagesOf stats) = e :: rest ->
  trace (done_handler o flag stats) =
    clears o ++
    [ logged Error o (VArr (VStr <$> e :: rest));
      logged Info o (VStr " ");
      OnFinished;
      logged Error o (VStr (chalk ["red"] ("Failed to compile." +:+ nl)));
      logged Error o (VStr e) ] /\
  join (nl +:+ nl) (take 1 (e :: rest)) = e /\
  (forall message, ~ In (logged Warning o message) (trace (done_handler o flag stats))).
Proof.
  intros He. unfold done_handler.
  rewrite (done_handler_errors _ o flag stats e rest He).
  split; [reflexivity|]. split; [reflexivity|].
  intros message. cbn [trace]. unfold clears, logged.
  destruct (truthy (nonInteractive o)); cbn; intros Hin;
    repeat (destruct Hin as [Hin | Hin]; [discriminate|]); exact Hin.
Qed.

(** C9, as the code has it.  [onFinished] is called exactly once in each run
    of the handler.  Before it, the only error or warning text is what
    [devSocket] hands to the logger: the whole error list, or without errors
    the whole warning list.  The summary, 'Failed to compile.' with the first
    error or 'Compiled with warnings.' with the warnings, comes after it. *)
Theorem onFinished_once (o : Options) (flag : bool) (stats : Stats) :
  exists pre : list effect,
    trace (done_handler o flag stats)
      = pre ++ OnFinished :: summary_lines o (messagesOf stats) /\
    existsb is_OnFinished pre = false /\
    existsb is_OnFinished (summary_lines o (messagesOf stats)) = false /\
    filter (fun e => error_or_warning_text e = true) pre
      = devSocket_lines o (messagesOf stats).
Proof.
  unfold summary_lines, devSocket_lines.
  destruct (done_handler_cases o flag stats)
    as [(e & rest & He) | [(He & w & rest & Hw) | [(He & Hw & Hdue) | (He & Hw & Hn & ->)]]].
  - unfold done_handler. rewrite (done_handler_errors _ o flag stats e rest He), He.
    cbn [trace].
    exists (clears o ++ [ logged Error o (VArr (VStr <$> e :: rest));
                          logged Info o (VStr " ") ]).
    split; [rewrite <- app_assoc; reflexivity|].
    unfold clears. destruct (truthy (nonInteractive o)); repeat split.
  - unfold done_handler. rewrite (done_handler_warnings _ o flag stats w rest He Hw), He, Hw.
    cbn [trace].
    exists (clears o ++ [ logged Warning o (VArr (VStr <$> w :: rest));
                          logged Info o (VStr " ") ]).
    split; [rewrite <- app_assoc; reflexivity|].
    unfold clears. destruct (truthy (nonInteractive o)); repeat split.
  - rewrite (done_handler_success_first o flag stats He Hw Hdue), He, Hw.
    cbn [trace].
    exists (clears o ++ success_lines o
            ++ trace (printInstructions (projectRoot o) (appName o) (urls o) (useYarn o))).
    split; [rewrite <- !app_assoc; reflexivity|].
    unfold clears, printInstructions.
    destruct (truthy (nonInteractive o)), (truthy (lanUrlForTerminal (urls o)));
      repeat split.
  - unfold done_handler. rewrite (done_handler_success_later _ o stats He Hw Hn), He, Hw.
    cbn [trace].
    exists (success_lines o). repeat split.
Qed.

End DoneHandler.

(** ** The flag isFirstCompile *)

Section FirstCompile.
Import WebpackCompiler CompilerTerms.
Context `{imports : Imports}.

(** Once the flag is [false], a non-interactive handler never reaches the
    call of [printInstructions]. *)
Lemma done_handler_later_quiet
    (instructions : string -> string -> Urls -> value -> proc unit)
    (o : Options) (stats : Stats) :
  truthy (nonInteractive o) = true ->
  done_handler_with instructions o false stats = done_handler_quiet o false stats.
Proof.
  intros Hn. unfold done_handler_quiet.
  destruct (done_handler_cases o false stats)
    as [(e & rest & He) | [(He & w & rest & Hw) | [(He & Hw & Hdue) | (He & Hw & _ & _)]]].
  - rewrite !(done_handler_errors _ o false stats e rest He). reflexivity.
  - rewrite !(done_handler_warnings _ o false stats w rest He Hw). reflexivity.
  - rewrite Hn in Hdue. discriminate.
  - rewrite !(done_handler_success_later _ o stats He Hw Hn). reflexivity.
Qed.

Lemma fire_later_quiet (o : Options) (later : list Stats) :
  truthy (nonInteractive o) = true ->
  fire (done_handler o) false later = fire (done_handler_quiet o) false later.
Proof.
  intros Hn. induction later as [|stats later IH]; [reflexivity|].
  cbn [fire].
  assert (done_handler o false stats = done_handler_quiet o false stats) as Heq
    by (apply done_handler_later_quiet, Hn).
  pose proof (done_handler_result o false stats) as Hres.
  rewrite <- Heq, Hres, IH. reflexivity.
Qed.

Lemma proc_ret_bind {A B} (a : A) (f : A -> proc B) : mret a ≫= f = f a.
Proof. cbn. destruct (f a) as [t r]. reflexivity. Qed.

(** What [createWebpackCompiler] does once the constructor has returned
    [compiler]: it taps the two hooks, and returns with the flag set. *)
Lemma createWebpackCompiler_after_constructor (o : Options) (compiler : value) :
  webpack o (config o) = Normal compiler ->
  createWebpackCompiler o =
    (tap compiler "invalid" "invalid";;
     tap compiler "done" "done";;
     mret (compiler, true)).
Proof.
  intros Hc. unfold createWebpackCompiler. rewrite Hc.
  apply (proc_ret_bind compiler).
Qed.

Lemma tap_cases (compiler : value) (hook name : string) :
  tap compiler hook name = Proc [HookTap hook name] (Returned tt) \/
  tap compiler hook name = Proc [] (Uncaught TypeError).
Proof.
  unfold tap.
  destruct (get compiler "hooks") as [hooks|e] eqn:Hh; cbn.
  2:{ destruct compiler; cbn in Hh; try discriminate; injection Hh as <-; auto. }
  destruct (get hooks hook) as [h|e] eqn:Hk; cbn.
  2:{ destruct hooks; cbn in Hk; try discriminate; injection Hk as <-; auto. }
  destruct (get h "tap") as [f|e] eqn:Hf; cbn.
  2:{ destruct h; cbn in Hf; try discriminate; injection Hf as <-; auto. }
  destruct f; auto.
Qed.

Lemma tap_nullish (compiler : value) (hook name : string) :
  nullish compiler = true ->
  tap compiler hook name = Proc [] (Uncaught TypeError).
Proof. intros Hn. unfold tap. rewrite (get_nullish _ _ Hn). reflexivity. Qed.

(** After the constructor has returned, the function either returns the
    compiler with the flag set, or a TypeError of a tap goes uncaught; it logs
    nothing and does not end the process. *)
Lemma createWebpackCompiler_no_catch (o : Options) (compiler : value) :
  webpack o (config o) = Normal compiler ->
  existsb is_log (trace (createWebpackCompiler o)) = false /\
  (result (createWebpackCompiler o) = Returned (compiler, true) \/
   result (createWebpackCompiler o) = Uncaught TypeError).
Proof.
  intros Hc. rewrite (createWebpackCompiler_after_constructor o compiler Hc).
  destruct (tap_cases compiler "invalid" "invalid") as [-> | ->];
    destruct (tap_cases compiler "done" "done") as [-> | ->]; cbn; auto.
Qed.

(** X14.  When the thrown value is [undefined] or [null], reading its message
    throws in turn, inside the handler: three lines are logged and the
    TypeError goes uncaught. *)
Lemma constructor_failure_nullish_error (o : Options) (err : value) :
  webpack o (config o) = Throw err ->
  nullish err = true ->
  createWebpackCompiler o =
    Proc [ logged Error o (VStr " ");
           logged Error o (VStr "Failed to compile");
           logged Error o (VStr " ") ]
         (Uncaught TypeError).
Proof.
  intros Herr Hn. unfold createWebpackCompiler. rewrite Herr. cbn.
  rewrite (get_nullish err "message" Hn). reflexivity.
Qed.

(** C1.  When [webpack(config)] throws a value that is not [undefined] or
    [null], [createWebpackCompiler] logs five error lines, the fourth being
    the message of the thrown value when that is truthy and the thrown value
    itself when there is no message, and ends the process with code 1.  The
    catch is around the constructor only: once the constructor has returned,
    nothing is logged and the process is not ended, also when a later step
    throws; and no run of the 'invalid' or 'done' handler ends the process. *)
Theorem constructor_failure_exits (o : Options) :
  (forall err,
     webpack o (config o) = Throw err ->
     nullish err = false ->
     createWebpackCompiler o =
       Proc [ logged Error o (VStr " ");
              logged Error o (VStr "Failed to compile");
              logged Error o (VStr " ");
              logged Error o (js_or (prop err "message") err);
              logged Error o (VStr " ") ]
            (Exited (VNum 1)) /\
     (truthy (prop err "message") = true ->
      js_or (prop err "message") err = prop err "message") /\
     (prop err "message" = VUndefined -> js_or (prop err "message") err = err)) /\
  (forall compiler,
     webpack o (config o) = Normal compiler ->
     existsb is_log (trace (createWebpackCompiler o)) = false /\
     (forall code, result (createWebpackCompiler o) <> Exited code) /\
     (nullish compiler = true ->
      result (createWebpackCompiler o) = Uncaught TypeError)) /\
  result (invalid_handler o) = Returned tt /\
  (forall flag stats, result (done_handler o flag stats) = Returned false).
Proof.
  split; [|split; [|split]].
  - intros err Herr Hn. split; [|split].
    + unfold createWebpackCompiler. rewrite Herr. cbn.
      rewrite (get_prop err "message" Hn). reflexivity.
    + unfold js_or. intros ->. reflexivity.
    + unfold js_or. intros ->. reflexivity.
  - intros compiler Hc.
    destruct (createWebpackCompiler_no_catch o compiler Hc) as [Hlog Hres].
    split; [exact Hlog|]. split.
    + intros code Hcode. destruct Hres as [Hres | Hres]; congruence.
    + intros Hn. rewrite (createWebpackCompiler_after_constructor o compiler Hc).
      rewrite (tap_nullish compiler "invalid" "invalid" Hn). reflexivity.
  - unfold invalid_handler. destruct (truthy (nonInteractive o)); reflexivity.
  - intros flag stats. apply done_handler_result.
Qed.


(** C10.  In non-interactive mode: the flag that [createWebpackCompiler]
    hands to the 'done' handler starts [true]; every run of the handler
    leaves it [false]; so in a sequence of 'done' events every firing after
    the first runs as the handler without the call of [printInstructions]
    does. *)
Theorem instructions_first_compile_only (o : Options) (first : Stats) (later : list Stats) :
  truthy (nonInteractive o) = true ->
  (forall compiler flag,
     result (createWebpackCompiler o) = Returned (compiler, flag) -> flag = true) /\
  (forall flag stats, result (done_handler o flag stats) = Returned false) /\
  (forall instructions stats,
     done_handler_with instructions o false stats = done_handler_quiet o false stats) /\
  fire_done o true (first :: later) =
    trace (done_handler o true first) :: fire (done_handler_quiet o) false later.
Proof.
  intros Hn. split; [|split; [|split]].
  - intros compiler flag Hres.
    destruct (webpack o (config o)) as [c|err] eqn:Hc.
    + destruct (createWebpackCompiler_no_catch o c Hc) as [_ [Hr | Hr]];
        rewrite Hr in Hres; congruence.
    + unfold createWebpackCompiler in Hres. rewrite Hc in Hres. cbn in Hres.
      destruct (get err "message"); cbn in Hres; discriminate.
  - intros flag stats. apply done_handler_result.
  - intros instructions stats. apply done_handler_later_quiet, Hn.
  - unfold fire_done. cbn [fire]. rewrite done_handler_result.
    rewrite (fire_later_quiet o later Hn). reflexivity.
Qed.

End FirstCompile.

(** ** Runs of the compiler wrapper with the sample imports *)

Section CompilerRuns.
Import WebpackCompiler CompilerTerms.

#[local] Existing Instance Sample.compiler_imports.

(** The constructor throws an error with a message. *)
Lemma constructor_failure_exits_witness :
  createWebpackCompiler
    (Sample.options (VBool false)
       (fun _ => Throw (obj [("message", VStr "Invalid configuration object")])))
  = Proc [ ProjectLog Error "/app" "webpack" (VStr " ");
           ProjectLog Error "/app" "webpack" (VStr "Failed to compile");
           ProjectLog Error "/app" "webpack" (VStr " ");
           ProjectLog Error "/app" "webpack" (VStr "Invalid configuration object");
           ProjectLog Error "/app" "webpack" (VStr " ") ]
         (Exited (VNum 1)).
Proof.
  destruct (constructor_failure_exits
              (Sample.options (VBool false)
                 (fun _ => Throw (obj [("message", VStr "Invalid configuration object")]))))
    as [Hthrow _].
  destruct (Hthrow (obj [("message", VStr "Invalid configuration object")])
              eq_refl eq_refl) as (Hrun & Hmessage & _).
  rewrite Hrun, (Hmessage eq_refl). reflexivity.
Defined.

(** C5, as stated, fails: with an error and a warning in the stats, the
    warning is not printed; nothing is logged at the warning level. *)
Lemma warning_not_printed_with_errors :
  let run := done_handler (Sample.options (VBool true) (fun _ => Normal Sample.compiler))
               true (Sample.stats ["e1"] ["w1"]) in
  warnings (messagesOf (Sample.stats ["e1"] ["w1"])) = ["w1"] /\
  ~ messages_printed (messagesOf (Sample.stats ["e1"] ["w1"])) (trace run) /\
  existsb is_warning (trace run) = false.
Proof.
  intros run. split; [reflexivity|]. split; [|reflexivity].
  intros [_ Hwarnings].
  specialize (Hwarnings "w1" (or_introl eq_refl)).
  vm_compute in Hwarnings. discriminate.
Qed.

(** C8, as stated, fails: with two errors, the second one is handed to the
    logger too, by [devSocket.errors]. *)
Lemma second_error_is_logged :
  ~ only_first_error_shown ["e1"; "e2"]
      (trace (done_handler (Sample.options (VBool true) (fun _ => Normal Sample.compiler))
                true (Sample.stats ["e1"; "e2"] []))).
Proof.
  intros Hfirst.
  specialize (Hfirst "e2" (or_intror (or_introl eq_refl)) eq_refl).
  discriminate.
Qed.

(** Two errors and a warning. *)
Lemma done_handler_with_errors_witness :
  trace (done_handler (Sample.options (VBool true) (fun _ => Normal Sample.compiler))
           true (Sample.stats ["e1"; "e2"] ["w"]))
  = [ ProjectLog Error "/app" "webpack" (VArr [VStr "e1"; VStr "e2"]);
      ProjectLog Info "/app" "webpack" (VStr " ");
      OnFinished;
      ProjectLog Error "/app" "webpack" (VStr ("Failed to compile." +:+ nl));
      ProjectLog Error "/app" "webpack" (VStr "e1") ].
Proof.
  destruct (done_handler_with_errors
              (Sample.options (VBool true) (fun _ => Normal Sample.compiler))
              true (Sample.stats ["e1"; "e2"] ["w"]) "e1" ["e2"])
    as [Htrace _]; [reflexivity | exact Htrace].
Defined.

(** C9, as stated, fails: with an error, the error list is logged before
    [onFinished] is called. *)
Lemma error_logged_before_onFinished :
  ~ onFinished_first
      (trace (done_handler (Sample.options (VBool true) (fun _ => Normal Sample.compiler))
                true (Sample.stats ["e1"] []))).
Proof.
  intros Hfirst.
  specialize (Hfirst [ ProjectLog Error "/app" "webpack" (VArr [VStr "e1"]);
                       ProjectLog Info "/app" "webpack" (VStr " ") ]
                     [ ProjectLog Error "/app" "webpack" (VStr ("Failed to compile." +:+ nl));
                       ProjectLog Error "/app" "webpack" (VStr "e1") ]
                     eq_refl).
  discriminate.
Qed.



(** A non-interactive session with three 'done' events: the compiler is
    created with the flag set, and the second and third firing run as the
    handler without [printInstructions]. *)
Lemma instructions_first_compile_only_witness :
  let o := Sample.options (VBool true) (fun _ => Normal Sample.compiler) in
  result (createWebpackCompiler o) = Returned (Sample.compiler, true) /\
  fire_done o true [Sample.stats [] []; Sample.stats [] []; Sample.stats ["e"] []] =
    trace (done_handler o true (Sample.stats [] []))
    :: fire (done_handler_quiet o) false [Sample.stats [] []; Sample.stats ["e"] []].
Proof.
  intros o. split; [reflexivity|].
  destruct (instructions_first_compile_only o (Sample.stats [] [])
              [Sample.stats [] []; Sample.stats ["e"] []])
    as (_ & _ & _ & Hfire); [reflexivity | exact Hfire].
Defined.

End CompilerRuns.

(** ** The changelog script *)

Section Changelog.
Import GenerateChangelog.
Context `{runtime : Runtime}.

(** [Object.assign({}, source)] is a new object with the own properties of
    [source], and nothing else. *)
Lemma Object_assign_empty (source : value) :
  Object_assign (obj []) source = VObj (own_props source).
Proof.
  unfold Object_assign, obj. cbn [rev list_to_map foldr].
  f_equal. apply (right_id_L ∅ (∪)).
Qed.

(** C6.  The script logs one line and spawns one child: the lerna binary at
    [../node_modules/.bin/lerna] from the script's directory, with the
    arguments ['version'] and ['--conventional-commits'], inherited stdio and
    an environment that holds the properties of [process.env].  Its only
    listener is on the child's 'exit' event, and ends the process with the
    exit code of the child. *)
Theorem changelog_spawns_lerna :
  exists options : value,
    effects script =
      [ ConsoleLog (VStr "generating changelog...");
        Spawn (path_join [ __dirname; VStr "../node_modules/.bin/lerna" ])
              [ VStr "version"; VStr "--conventional-commits" ]
              options ] /\
    options = obj [ ("stdio", VStr "inherit");
                    ("env", VObj (own_props process_env)) ] /\
    prop options "stdio" = VStr "inherit" /\
    prop options "env" = VObj (own_props process_env) /\
    (forall code signal : value, emit script "exit" [code; signal] = [Terminate code]) /\
    (forall (event : string) (args : list value),
       event <> "exit" -> emit script event args = []).
Proof.
  eexists. split; [reflexivity|].
  rewrite Object_assign_empty.
  split; [reflexivity|]. split; [reflexivity|]. split; [reflexivity|].
  split.
  - intros code signal. reflexivity.
  - intros event args Hne. unfold emit, script. cbn [listeners].
    rewrite filter_cons, filter_nil. cbn [fst].
    destruct (decide ("exit" = event)) as [Heq|_]; [congruence|reflexivity].
Qed.

End Changelog.

Section ChangelogRuns.
Import GenerateChangelog.

(** The script with the sample runtime, and a child that exits with code 3. *)
Example changelog_sample_run :
  effects (script (runtime := Sample.runtime)) =
    [ ConsoleLog (VStr "generating changelog...");
      Spawn (VStr "/repo/scripts/../node_modules/.bin/lerna")
            [ VStr "version"; VStr "--conventional-commits" ]
            (obj [ ("stdio", VStr "inherit");
                   ("env", obj [ ("PATH", VStr "/usr/bin") ]) ]) ] /\
  emit (script (runtime := Sample.runtime)) "exit" [VNum 3; VNull] = [Terminate (VNum 3)].
Proof. split; reflexivity. Qed.

End ChangelogRuns.

(** ** More on the configuration builder *)

Section BuilderShape.
Import WebpackCommon Terms MoreTerms.
Context `{imports : Imports}.

(** The configuration returned for arguments the builder accepts, field by
    field. *)
Lemma module_exports_shape (env argv : value) :
  well_formed env ->
  let config := prop env "config" in
  let web := webOf env in
  let locations := getLocations (prop env "projectRoot") in
  exists (cfg : Configuration) (interpolate define progress : list value),
    module_exports env argv = Normal cfg /\
    bail cfg = prop env "production" /\
    getDevtool env web = Normal (devtool cfg) /\
    context cfg = __dirname /\
    output cfg = obj [ ("path", production_folder locations);
                       ("sourceMapFilename", VStr "[chunkhash].map");
                       ("publicPath", prop web "publicPath") ] /\
    performance cfg = VBool false /\
    plugins cfg =
      [ createIndexHTMLFromAppJSON env config locations;
        VNew "InterpolateHtmlPlugin" interpolate;
        VNew "webpack.DefinePlugin" define;
        VNew "WebpackDeepScopeAnalysisPlugin" [] ]
      ++ (if truthy (serviceWorkerOf env)
          then [ VNew "WorkboxPlugin.GenerateSW"
                   [ generateSWOptions (prop web "publicPath") (serviceWorkerOf env) ] ]
          else [])
      ++ [ VNew "WebpackPWAManifestPlugin"
             [ config;
               obj_spread_first env
                 [ ("noResources", prop env "development");
                   ("filename", production_manifest locations) ] ];
           VNew "ModuleNotFoundPlugin" [ root locations ];
           VNew "ProgressBarPlugin" progress ]
      ++ (if truthy (reportConfigOf env)
          then reportPluginsOf locations (reportConfigOf env)
          else []).
Proof.
  intros (Henv & Hconfig & Hweb) config web locations.
  subst config web.
  unfold module_exports.
  assert (is_undefined env = false) as -> by (destruct env; try reflexivity; discriminate).
  rewrite !(get_prop env) by assumption. cbn.
  rewrite (get_prop (prop env "config")) by assumption. cbn.
  fold (webOf env).
  rewrite !(get_prop (webOf env)) by assumption. cbn.
  destruct (getDevtool_returns env (webOf env) Henv Hweb) as [d Hd].
  unfold serviceWorkerOf, reportConfigOf. fold locations.
  set (reportConfig :=
         overrideWithPropertyOrConfig (prop (webOf env) "report") DEFAULT_REPORT_CONFIG).
  assert ((if truthy reportConfig then reportPluginsFor locations reportConfig
           else mret []) =
          Normal (if truthy reportConfig then reportPluginsOf locations reportConfig
                  else [])) as ->.
  { destruct (truthy reportConfig) eqn:Ht; [|reflexivity].
    unfold reportPluginsOf.
    rewrite (reportPluginsFor_returns locations reportConfig)
      by (apply truthy_not_nullish, Ht).
    reflexivity. }
  destruct (truthy (prop env "production")); cbn; rewrite Hd; cbn;
    match goal with
    | |- context [truthy (overrideWithPropertyOrConfig ?p DEFAULT_SERVICE_WORKER)] =>
        destruct (truthy (overrideWithPropertyOrConfig p DEFAULT_SERVICE_WORKER))
    end;
    do 4 eexists; repeat (split; [reflexivity|]); reflexivity.
Qed.

(** The value of [getDevtool] for arguments it can read. *)
Lemma getDevtool_eval (env webConfig : value) :
  nullish env = false ->
  nullish webConfig = false ->
  getDevtool env webConfig =
  Normal (if truthy (prop env "production")
          then (if is_undefined (prop webConfig "devtool") then VStr "source-map"
                else prop webConfig "devtool")
          else if truthy (prop env "development") then VStr "cheap-module-source-map"
          else VUndefined).
Proof.
  intros Henv Hweb. unfold getDevtool.
  rewrite !(get_prop env), (get_prop webConfig) by assumption. cbn.
  destruct (truthy (prop env "production")).
  - destruct (is_undefined (prop webConfig "devtool")); reflexivity.
  - destruct (truthy (prop env "development")); reflexivity.
Qed.

(** X1.  The builder returns a configuration when [env], [env.config] and
    [env.config.web] are there; when one of them is [undefined] or [null] it
    throws a TypeError.  The default [env = {}] does not help: called without
    an [env], the builder throws. *)
Theorem module_exports_needs_config (env argv : value) :
  (well_formed env -> exists cfg, module_exports env argv = Normal cfg) /\
  (nullish env = true \/ nullish (prop env "config") = true \/
   nullish (webOf env) = true ->
   module_exports env argv = Throw TypeError) /\
  module_exports VUndefined argv = Throw TypeError.
Proof.
  split; [|split].
  - intros Hwf.
    destruct (module_exports_shape env argv Hwf) as (cfg & ? & ? & ? & Hcfg & _).
    exists cfg. exact Hcfg.
  - intros Hmissing. unfold module_exports.
    destruct (nullish env) eqn:Henv.
    { destruct env; try discriminate; reflexivity. }
    assert (is_undefined env = false) as -> by (destruct env; try reflexivity; discriminate).
    rewrite !(get_prop env) by assumption. cbn.
    destruct (nullish (prop env "config")) eqn:Hconfig.
    { rewrite (get_nullish _ "web" Hconfig). reflexivity. }
    rewrite (get_prop (prop env "config")) by assumption. cbn.
    fold (webOf env).
    destruct Hmissing as [Hm | [Hm | Hm]]; try discriminate.
    rewrite (get_nullish _ "publicPath" Hm). reflexivity.
  - reflexivity.
Qed.

(** X2.  [getDevtool] reads the web config in production only: with a present
    [env] whose [production] is falsy it returns whatever the web config is,
    also [undefined]; it throws a TypeError when [env] is [undefined] or
    [null], and in production when the web config is. *)
Theorem getDevtool_reads_lazily (env webConfig : value) :
  (nullish env = true -> getDevtool env webConfig = Throw TypeError) /\
  (nullish env = false -> truthy (prop env "production") = true ->
   nullish webConfig = true -> getDevtool env webConfig = Throw TypeError) /\
  (nullish env = false -> truthy (prop env "production") = false ->
   getDevtool env webConfig =
   Normal (if truthy (prop env "development") then VStr "cheap-module-source-map"
           else VUndefined)).
Proof.
  unfold getDevtool. split; [|split].
  - intros Henv. rewrite (get_nullish env "production" Henv). reflexivity.
  - intros Henv Hp Hweb. rewrite (get_prop env "production" Henv). cbn.
    rewrite Hp, (get_nullish webConfig "devtool" Hweb). reflexivity.
  - intros Henv Hp. rewrite !(get_prop env) by assumption. cbn.
    rewrite Hp. cbn. destruct (truthy (prop env "development")); reflexivity.
Qed.

(** X3.  When the service worker plugin is included, what the service worker
    configuration defines itself wins over the built-in options, and the
    built-in options stand where it defines nothing: [clientsClaim] is [true],
    [importWorkboxFrom] is ['cdn'], [navigateFallback] is the public path
    followed by [index.html]. *)
Theorem service_worker_options_override (env argv : value) :
  well_formed env ->
  truthy (serviceWorkerOf env) = true ->
  exists (cfg : Configuration) (options : value),
    module_exports env argv = Normal cfg /\
    In (VNew "WorkboxPlugin.GenerateSW" [options]) (plugins cfg) /\
    (forall k x, own_props (serviceWorkerOf env) !! k = Some x -> prop options k = x) /\
    (own_props (serviceWorkerOf env) !! "clientsClaim" = None ->
     prop options "clientsClaim" = VBool true) /\
    (own_props (serviceWorkerOf env) !! "importWorkboxFrom" = None ->
     prop options "importWorkboxFrom" = VStr "cdn") /\
    (own_props (serviceWorkerOf env) !! "navigateFallback" = None ->
     prop options "navigateFallback"
     = VStr (ToString (prop (webOf env) "publicPath") +:+ "index.html")).
Proof.
  intros Hwf Ht.
  destruct (module_exports_shape env argv Hwf)
    as (cfg & interpolate & define & progress & Hcfg & _ & _ & _ & _ & _ & Hplugins).
  rewrite Ht in Hplugins.
  exists cfg. eexists. split; [exact Hcfg|]. split.
  - rewrite Hplugins. apply in_or_app. right. apply in_or_app. left. left. reflexivity.
  - unfold generateSWOptions. split; [|split; [|split]].
    + intros k x Hk. apply prop_obj_spread_last, Hk.
    + intros Hk. rewrite (prop_obj_spread_last_None _ _ _ Hk). reflexivity.
    + intros Hk. rewrite (prop_obj_spread_last_None _ _ _ Hk). reflexivity.
    + intros Hk. rewrite (prop_obj_spread_last_None _ _ _ Hk). reflexivity.
Qed.

(** X4.  The manifest plugin is built from [config] and a copy of [env] in
    which [noResources] is [env.development] and [filename] is the manifest
    location, whatever [env] holds under those two names; every other
    property of [env] is passed on unchanged. *)
Theorem manifest_options_from_env (props : gmap string value) (argv : value) :
  well_formed (VObj props) ->
  let env := VObj props in
  let locations := getLocations (prop env "projectRoot") in
  exists (cfg : Configuration) (options : value),
    module_exports env argv = Normal cfg /\
    In (VNew "WebpackPWAManifestPlugin" [prop env "config"; options]) (plugins cfg) /\
    prop options "noResources" = prop env "development" /\
    prop options "filename" = production_manifest locations /\
    (forall k, k <> "noResources" -> k <> "filename" -> prop options k = prop env k).
Proof.
  intros Hwf env locations.
  destruct (module_exports_shape env argv Hwf)
    as (cfg & interpolate & define & progress & Hcfg & _ & _ & _ & _ & _ & Hplugins).
  exists cfg. eexists. split; [exact Hcfg|]. split.
  - rewrite Hplugins. apply in_or_app. right. apply in_or_app. right.
    apply in_or_app. left. left. reflexivity.
  - unfold obj_spread_first, prop, get. cbn [rev app list_to_map foldr own_props].
    split; [|split].
    + erewrite lookup_union_Some_l; [reflexivity|].
      rewrite lookup_insert_ne by discriminate. apply lookup_insert_eq.
    + erewrite lookup_union_Some_l; [reflexivity|]. apply lookup_insert_eq.
    + intros k Hn Hf. rewrite lookup_union_r; [reflexivity|].
      do 2 (rewrite lookup_insert_ne by (intros Heq; symmetry in Heq; contradiction)).
      apply lookup_empty.
Qed.

(** X6.  The analyzer receives every own property of the report
    configuration, also [path] and [verbose]; where the report configuration
    says nothing, the analysis is static, sized by gzip, writes a stats file,
    does not open the browser, and logs at ['info'] when [verbose] is truthy
    and at ['silent'] when it is not. *)
Theorem analyzer_options (env argv : value) :
  well_formed env ->
  truthy (reportConfigOf env) = true ->
  let reportConfig := reportConfigOf env in
  exists (cfg : Configuration) (before cleanArgs : list value) (options : value),
    module_exports env argv = Normal cfg /\
    plugins cfg =
      before ++ [ VNew "CleanWebpackPlugin" cleanArgs;
                  VNew "BundleAnalyzerPlugin" [options] ] /\
    (forall k x, own_props reportConfig !! k = Some x -> prop options k = x) /\
    (own_props reportConfig !! "analyzerMode" = None ->
     prop options "analyzerMode" = VStr "static") /\
    (own_props reportConfig !! "defaultSizes" = None ->
     prop options "defaultSizes" = VStr "gzip") /\
    (own_props reportConfig !! "generateStatsFile" = None ->
     prop options "generateStatsFile" = VBool true) /\
    (own_props reportConfig !! "openAnalyzer" = None ->
     prop options "openAnalyzer" = VBool false) /\
    (own_props reportConfig !! "logLevel" = None ->
     prop options "logLevel"
     = if truthy (prop reportConfig "verbose") then VStr "info" else VStr "silent").
Proof.
  intros Hwf Ht reportConfig.
  destruct (module_exports_shape env argv Hwf)
    as (cfg & interpolate & define & progress & Hcfg & _ & _ & _ & _ & _ & Hplugins).
  rewrite Ht in Hplugins. unfold reportPluginsOf in Hplugins.
  rewrite (reportPluginsFor_returns _ _ (truthy_not_nullish _ Ht)) in Hplugins.
  rewrite !app_assoc in Hplugins.
  do 4 eexists. split; [exact Hcfg|]. split; [exact Hplugins|].
  split; [intros k x Hk; apply prop_obj_spread_last, Hk|].
  repeat split; intros Hk; rewrite (prop_obj_spread_last_None _ _ _ Hk); reflexivity.
Qed.

(** X7.  The plugins come in a fixed order.  After the index HTML plugin:
    InterpolateHtmlPlugin, DefinePlugin, the scope analysis plugin, the
    service worker plugin when its configuration is truthy, the manifest
    plugin, ModuleNotFoundPlugin, ProgressBarPlugin, and last the two report
    plugins when the report configuration is truthy. *)
Theorem plugin_order (env argv : value) :
  well_formed env ->
  exists (cfg : Configuration) (index : value) (others : list value),
    module_exports env argv = Normal cfg /\
    plugins cfg = index :: others /\
    index = createIndexHTMLFromAppJSON env (prop env "config")
              (getLocations (prop env "projectRoot")) /\
    ctor_of <$> others =
      (Some <$> [ "InterpolateHtmlPlugin"; "webpack.DefinePlugin";
                  "WebpackDeepScopeAnalysisPlugin" ])
      ++ (if truthy (serviceWorkerOf env) then [Some "WorkboxPlugin.GenerateSW"] else [])
      ++ (Some <$> [ "WebpackPWAManifestPlugin"; "ModuleNotFoundPlugin";
                     "ProgressBarPlugin" ])
      ++ (if truthy (reportConfigOf env)
          then Some <$> [ "CleanWebpackPlugin"; "BundleAnalyzerPlugin" ]
          else []).
Proof.
  intros Hwf.
  destruct (module_exports_shape env argv Hwf)
    as (cfg & interpolate & define & progress & Hcfg & _ & _ & _ & _ & _ & Hplugins).
  exists cfg. do 2 eexists. split; [exact Hcfg|]. split; [exact Hplugins|].
  split; [reflexivity|].
  destruct (truthy (reportConfigOf env)) eqn:Ht.
  - unfold reportPluginsOf.
    rewrite (reportPluginsFor_returns _ _ (truthy_not_nullish _ Ht)).
    destruct (truthy (serviceWorkerOf env)); reflexivity.
  - destruct (truthy (serviceWorkerOf env)); reflexivity.
Qed.

(** X8.  In the returned configuration [bail] is [env.production], the public
    path of the output is [config.web.publicPath], and [devtool] follows the
    environment: in production [config.web.devtool], or ['source-map'] when
    that is [undefined]; outside production ['cheap-module-source-map'] for a
    development build and [undefined] otherwise. *)
Theorem configuration_follows_environment (env argv : value) :
  well_formed env ->
  exists cfg : Configuration,
    module_exports env argv = Normal cfg /\
    bail cfg = prop env "production" /\
    prop (output cfg) "publicPath" = prop (webOf env) "publicPath" /\
    devtool cfg =
      (if truthy (prop env "production")
       then (if is_undefined (prop (webOf env) "devtool") then VStr "source-map"
             else prop (webOf env) "devtool")
       else if truthy (prop env "development") then VStr "cheap-module-source-map"
       else VUndefined).
Proof.
  intros Hwf.
  destruct (module_exports_shape env argv Hwf)
    as (cfg & interpolate & define & progress & Hcfg & Hbail & Hdev & _ & Hout & _).
  exists cfg. split; [exact Hcfg|]. split; [exact Hbail|]. split.
  - rewrite Hout. reflexivity.
  - destruct Hwf as (Henv & _ & Hweb).
    rewrite (getDevtool_eval env (webOf env) Henv Hweb) in Hdev.
    injection Hdev as <-. reflexivity.
Qed.

Lemma prop_without_own_props (v : value) (k : string) :
  own_props v = ∅ -> prop v k = VUndefined.
Proof.
  intros Hempty. destruct v; try reflexivity.
  cbn in Hempty. subst props. reflexivity.
Qed.

(** X18.  A truthy report configuration without properties of its own, such
    as [{}] or [true], gives the documented defaults: the directory
    [web-report] is cleaned, not verbosely, and the analyzer writes
    [stats.json] and [report.html] inside it and logs at ['silent']. *)
Theorem report_defaults (env argv : value) :
  well_formed env ->
  truthy (reportConfigOf env) = true ->
  own_props (reportConfigOf env) = ∅ ->
  let locations := getLocations (prop env "projectRoot") in
  exists (cfg : Configuration) (before : list value),
    module_exports env argv = Normal cfg /\
    plugins cfg =
      before ++
      [ VNew "CleanWebpackPlugin"
          [ VArr [ absolute locations [VStr "web-report"] ];
            obj [ ("root", root locations);
                  ("dry", VBool false);
                  ("verbose", VUndefined) ] ];
        VNew "BundleAnalyzerPlugin"
          [ obj [ ("analyzerMode", VStr "static");
                  ("defaultSizes", VStr "gzip");
                  ("generateStatsFile", VBool true);
                  ("openAnalyzer", VBool false);
                  ("logLevel", VStr "silent");
                  ("statsFilename",
                     absolute locations [VStr "web-report"; VStr "stats.json"]);
                  ("reportFilename",
                     absolute locations [VStr "web-report"; VStr "report.html"]) ] ] ].
Proof.
  intros Hwf Ht Hempty locations.
  destruct (module_exports_shape env argv Hwf)
    as (cfg & interpolate & define & progress & Hcfg & _ & _ & _ & _ & _ & Hplugins).
  rewrite Ht in Hplugins. unfold reportPluginsOf in Hplugins.
  rewrite (reportPluginsFor_returns _ _ (truthy_not_nullish _ Ht)) in Hplugins.
  rewrite !(prop_without_own_props _ _ Hempty) in Hplugins.
  unfold obj_spread_last in Hplugins. rewrite Hempty in Hplugins.
  rewrite (left_id_L ∅ (∪)) in Hplugins.
  rewrite !app_assoc in Hplugins.
  exists cfg. eexists. split; [exact Hcfg|]. exact Hplugins.
Qed.

Lemma list_ascii_of_string_app (s t : string) :
  list_ascii_of_string (s +:+ t) = list_ascii_of_string s ++ list_ascii_of_string t.
Proof. induction s as [|c s IH]; simpl; [reflexivity|]. f_equal. exact IH. Qed.

Lemma string_length_app (s t : string) :
  String.length (s +:+ t) = (String.length s + String.length t)%nat.
Proof. induction s as [|c s IH]; simpl; [reflexivity|]. f_equal. exact IH. Qed.

Lemma string_app_inv_tail (s1 s2 t : string) : s1 +:+ t = s2 +:+ t -> s1 = s2.
Proof.
  intros Heq. apply (f_equal list_ascii_of_string) in Heq.
  rewrite !list_ascii_of_string_app in Heq. apply app_inv_tail in Heq.
  rewrite <- (string_of_list_ascii_of_string s1), <- (string_of_list_ascii_of_string s2).
  rewrite Heq. reflexivity.
Qed.

(** X19.  [createNoJSComponent] puts the text of the message into the markup
    as it is: the component is 505 characters longer than the text, whatever
    the text, and two messages give the same component exactly when their
    text is the same. *)
Theorem createNoJSComponent_embeds_message (m1 m2 : value) :
  (exists markup, createNoJSComponent m1 = VStr markup /\
     String.length markup = (String.length (ToString m1) + 505)%nat) /\
  (createNoJSComponent m1 = createNoJSComponent m2 <-> ToString m1 = ToString m2).
Proof.
  unfold createNoJSComponent. split.
  - eexists. split; [reflexivity|].
    rewrite !string_length_app.
    match goal with
    | |- (?a + (_ + ?b))%nat = _ =>
        change a with (Nat.add 225 0); change b with (Nat.add 280 0)
    end.
    lia.
  - split.
    + intros Heq. injection Heq as Heq.
      apply (inj (String.app _)) in Heq.
      apply string_app_inv_tail in Heq. exact Heq.
    + intros ->. reflexivity.
Qed.

End BuilderShape.

(** ** More on the compiler wrapper *)

Section CompilerMore.
Import WebpackCompiler CompilerTerms MoreTerms.
Context `{imports : Imports}.

Lemma prop_nullish (v : value) (k : string) : nullish v = true -> prop v k = VUndefined.
Proof. intros Hn. unfold prop. rewrite (get_nullish v k Hn). reflexivity. Qed.

Lemma get_cases (v : value) (k : string) :
  (nullish v = true /\ get v k = Throw TypeError) \/
  (nullish v = false /\ get v k = Normal (prop v k)).
Proof.
  destruct (nullish v) eqn:Hn; [left | right]; split; try reflexivity.
  - apply get_nullish, Hn.
  - apply get_prop, Hn.
Qed.

(** A tap goes through when the hook has a [tap] function, and throws a
    TypeError when it has not. *)
Lemma tap_tappable (compiler : value) (hook name : string) :
  tap compiler hook name =
    if tappable compiler hook then Proc [HookTap hook name] (Returned tt)
    else Proc [] (Uncaught TypeError).
Proof.
  unfold tap, tappable.
  destruct (get_cases compiler "hooks") as [[Hn ->] | [Hn ->]]; cbn.
  { rewrite (prop_nullish compiler "hooks" Hn). reflexivity. }
  destruct (get_cases (prop compiler "hooks") hook) as [[Hh ->] | [Hh ->]]; cbn.
  { rewrite (prop_nullish (prop compiler "hooks") hook Hh). reflexivity. }
  destruct (get_cases (prop (prop compiler "hooks") hook) "tap") as [[Ht ->] | [Ht ->]]; cbn.
  { rewrite (prop_nullish _ "tap" Ht). reflexivity. }
  destruct (prop (prop (prop compiler "hooks") hook) "tap"); reflexivity.
Qed.

(** X13.  Once the constructor has returned a compiler, [createWebpackCompiler]
    taps the 'invalid' hook and then the 'done' hook and returns that same
    compiler.  A hook that cannot be tapped makes it throw a TypeError that
    nothing catches: before any tap when it is the 'invalid' hook, after the
    'invalid' tap when it is the 'done' hook. *)
Theorem createWebpackCompiler_taps_hooks (o : Options) (compiler : value) :
  webpack o (config o) = Normal compiler ->
  createWebpackCompiler o =
    if tappable compiler "invalid" then
      if tappable compiler "done" then
        Proc [ HookTap "invalid" "invalid"; HookTap "done" "done" ]
             (Returned (compiler, true))
      else Proc [ HookTap "invalid" "invalid" ] (Uncaught TypeError)
    else Proc [] (Uncaught TypeError).
Proof.
  intros Hc. rewrite (createWebpackCompiler_after_constructor o compiler Hc).
  rewrite !tap_tappable.
  destruct (tappable compiler "invalid"), (tappable compiler "done"); reflexivity.
Qed.

(** X9.  The console is cleared only in interactive mode: with a truthy
    [nonInteractive] neither handler clears it, and otherwise each handler
    clears it once, before anything else. *)
Theorem console_cleared_when_interactive (o : Options) (flag : bool) (stats : Stats) :
  (truthy (nonInteractive o) = true ->
   existsb is_clear (trace (invalid_handler o)) = false /\
   existsb is_clear (trace (done_handler o flag stats)) = false) /\
  (truthy (nonInteractive o) = false ->
   exists t1 t2,
     trace (invalid_handler o) = ClearConsole :: t1 /\ existsb is_clear t1 = false /\
     trace (done_handler o flag stats) = ClearConsole :: t2 /\ existsb is_clear t2 = false).
Proof.
  assert (existsb is_clear
            (trace (printInstructions (projectRoot o) (appName o) (urls o) (useYarn o)))
          = false) as Hinstr.
  { unfold printInstructions. destruct (truthy (lanUrlForTerminal (urls o))); reflexivity. }
  split; intros Hn.
  - split; [unfold invalid_handler; rewrite Hn; reflexivity|].
    destruct (done_handler_cases o flag stats)
      as [(e & rest & He) | [(He & w & rest & Hw) | [(He & Hw & Hdue) | (He & Hw & _ & ->)]]].
    + unfold done_handler. rewrite (done_handler_errors _ o flag stats e rest He).
      unfold clears. rewrite Hn. reflexivity.
    + unfold done_handler. rewrite (done_handler_warnings _ o flag stats w rest He Hw).
      unfold clears. rewrite Hn. reflexivity.
    + rewrite (done_handler_success_first o flag stats He Hw Hdue).
      unfold clears. rewrite Hn. cbn [trace app].
      rewrite !existsb_app, Hinstr. reflexivity.
    + unfold done_handler. rewrite (done_handler_success_later _ o stats He Hw Hn).
      reflexivity.
  - assert (trace (invalid_handler o)
            = ClearConsole
              :: [ logged Info o (VStr (chalk ["white"] (nl +:+ "Compiling..."))) ]) as Hinv
      by (unfold invalid_handler; rewrite Hn; reflexivity).
    destruct (done_handler_cases o flag stats)
      as [(e & rest & He) | [(He & w & rest & Hw) | [(He & Hw & Hdue) | (He & Hw & Ht & _)]]].
    + unfold done_handler. rewrite (done_handler_errors _ o flag stats e rest He).
      unfold clears. rewrite Hn. eexists _, _. repeat split; [exact Hinv|].
      reflexivity.
    + unfold done_handler. rewrite (done_handler_warnings _ o flag stats w rest He Hw).
      unfold clears. rewrite Hn. eexists _, _. repeat split; [exact Hinv|].
      reflexivity.
    + rewrite (done_handler_success_first o flag stats He Hw Hdue).
      unfold clears. rewrite Hn. cbn [trace app].
      eexists _, _. split; [exact Hinv|]. split; [reflexivity|].
      split; [reflexivity|].
      rewrite !existsb_app, Hinstr. reflexivity.
    + congruence.
Qed.

(** X12.  When the compile has errors or warnings, the only line logged at
    the info level is the blank line: the success message, the preview notice
    and the instructions are not printed. *)
Theorem unsuccessful_compile_info_lines (o : Options) (flag : bool) (stats : Stats) :
  errors (messagesOf stats) <> [] \/ warnings (messagesOf stats) <> [] ->
  filter (fun e => is_info e = true) (trace (done_handler o flag stats))
  = [ logged Info o (VStr " ") ].
Proof.
  intros Hcase.
  destruct (done_handler_cases o flag stats)
    as [(e & rest & He) | [(He & w & rest & Hw) | [(He & Hw & _) | (He & Hw & _)]]].
  - unfold done_handler. rewrite (done_handler_errors _ o flag stats e rest He).
    unfold clears. destruct (truthy (nonInteractive o)); reflexivity.
  - unfold done_handler. rewrite (done_handler_warnings _ o flag stats w rest He Hw).
    unfold clears. destruct (truthy (nonInteractive o)); reflexivity.
  - destruct Hcase; congruence.
  - destruct Hcase; congruence.
Qed.

(** X16.  With warnings and no error, no warning is dropped: the whole list
    goes to the logger before [onFinished], and after it the summary joins
    all of them, separated by blank lines; nothing is logged as an error. *)
Theorem done_handler_with_warnings (o : Options) (flag : bool) (stats : Stats)
    (w : string) (rest : list string) :
  errors (messagesOf stats) = [] ->
  warnings (messagesOf stats) = w :: rest ->
  trace (done_handler o flag stats) =
    clears o ++
    [ logged Warning o (VArr (VStr <$> w :: rest));
      logged Info o (VStr " ");
      OnFinished ] ++ summary_lines o (messagesOf stats) /\
  In (logged Warning o (VStr (join (nl +:+ nl) (w :: rest))))
     (summary_lines o (messagesOf stats)) /\
  existsb is_error (trace (done_handler o flag stats)) = false.
Proof.
  intros He Hw. unfold done_handler.
  rewrite (done_handler_warnings _ o flag stats w rest He Hw).
  unfold summary_lines. rewrite He, Hw. cbn [trace].
  split; [reflexivity|]. split; [right; left; reflexivity|].
  unfold clears. destruct (truthy (nonInteractive o)); reflexivity.
Qed.

Lemma onFinished_calls_done (o : Options) (flag : bool) (stats : Stats) :
  onFinished_calls (trace (done_handler o flag stats)) = 1%nat.
Proof.
  unfold onFinished_calls.
  destruct (done_handler_cases o flag stats)
    as [(e & rest & He) | [(He & w & rest & Hw) | [(He & Hw & Hdue) | (He & Hw & Hn & ->)]]].
  - unfold done_handler. rewrite (done_handler_errors _ o flag stats e rest He).
    unfold clears. destruct (truthy (nonInteractive o)); reflexivity.
  - unfold done_handler. rewrite (done_handler_warnings _ o flag stats w rest He Hw).
    unfold clears. destruct (truthy (nonInteractive o)); reflexivity.
  - rewrite (done_handler_success_first o flag stats He Hw Hdue).
    unfold clears, printInstructions.
    destruct (truthy (nonInteractive o)), (truthy (lanUrlForTerminal (urls o)));
      reflexivity.
  - unfold done_handler. rewrite (done_handler_success_later _ o stats He Hw Hn).
    reflexivity.
Qed.

(** X17.  A sequence of 'done' events gives one run of the handler per event,
    and each run calls [onFinished] exactly once: [n] events, [n] calls. *)
Theorem onFinished_per_event (o : Options) (flag : bool) (events : list Stats) :
  length (fire_done o flag events) = length events /\
  Forall (fun t => onFinished_calls t = 1%nat) (fire_done o flag events) /\
  onFinished_calls (concat (fire_done o flag events)) = length events.
Proof.
  unfold fire_done. revert flag.
  induction events as [|stats events IH]; intros flag.
  - repeat split. constructor.
  - cbn [fire]. rewrite done_handler_result.
    destruct (IH false) as (Hlen & Hall & Hsum).
    split; [cbn [length]; rewrite Hlen; reflexivity|]. split.
    + constructor; [apply onFinished_calls_done | exact Hall].
    + cbn [concat length]. unfold onFinished_calls in *.
      rewrite filter_app, length_app, Hsum.
      pose proof (onFinished_calls_done o flag stats) as Hone.
      unfold onFinished_calls in Hone. rewrite Hone. reflexivity.
Qed.

(** X10.  In interactive mode the instructions come with every successful
    compile, not only the first: in a sequence of 'done' events without errors
    and warnings each firing clears the console, prints the success lines and
    the instructions, and calls [onFinished]. *)
Theorem interactive_instructions_every_time (o : Options) (flag : bool)
    (events : list Stats) :
  truthy (nonInteractive o) = false ->
  Forall (fun stats => errors (messagesOf stats) = [] /\ warnings (messagesOf stats) = [])
         events ->
  fire_done o flag events =
    (fun _ => ClearConsole :: success_lines o
              ++ trace (printInstructions (projectRoot o) (appName o) (urls o) (useYarn o))
              ++ [OnFinished]) <$> events.
Proof.
  intros Hn Hall. unfold fire_done. revert flag.
  induction Hall as [|stats events [He Hw] _ IH]; intros flag; [reflexivity|].
  cbn [fire fmap list_fmap]. rewrite done_handler_result.
  rewrite (done_handler_success_first o flag stats He Hw) by (rewrite Hn; reflexivity).
  unfold clears. rewrite Hn. cbn [trace app].
  f_equal. apply IH.
Qed.

(** X11.  In non-interactive mode the first 'done' event is the only chance
    for the instructions: when the first compile has errors or warnings, no
    firing of the sequence reaches [printInstructions], also when a later
    compile succeeds. *)
Theorem failed_first_compile_never_instructs (o : Options) (first : Stats)
    (later : list Stats) :
  truthy (nonInteractive o) = true ->
  errors (messagesOf first) <> [] \/ warnings (messagesOf first) <> [] ->
  fire_done o true (first :: later) = fire (done_handler_quiet o) true (first :: later).
Proof.
  intros Hn Hcase. unfold fire_done.
  assert (done_handler o true first = done_handler_quiet o true first) as Heq.
  { unfold done_handler, done_handler_quiet.
    destruct (done_handler_cases o true first)
      as [(e & rest & He) | [(He & w & rest & Hw) | [(He & Hw & _) | (He & Hw & _)]]].
    - rewrite !(done_handler_errors _ o true first e rest He). reflexivity.
    - rewrite !(done_handler_warnings _ o true first w rest He Hw). reflexivity.
    - destruct Hcase; congruence.
    - destruct Hcase; congruence. }
  cbn [fire]. rewrite <- Heq, done_handler_result.
  rewrite (fire_later_quiet o later Hn). reflexivity.
Qed.

(** X20.  In non-interactive mode, a first compile without errors and warnings
    prints the success lines and the instructions and then calls
    [onFinished]; every later firing runs as the handler without
    [printInstructions] does. *)
Theorem noninteractive_first_success_instructs (o : Options) (first : Stats)
    (later : list Stats) :
  truthy (nonInteractive o) = true ->
  errors (messagesOf first) = [] ->
  warnings (messagesOf first) = [] ->
  fire_done o true (first :: later) =
    (success_lines o
     ++ trace (printInstructions (projectRoot o) (appName o) (urls o) (useYarn o))
     ++ [OnFinished])
    :: fire (done_handler_quiet o) false later.
Proof.
  intros Hn He Hw. unfold fire_done. cbn [fire].
  rewrite done_handler_result, (fire_later_quiet o later Hn).
  rewrite (done_handler_success_first o true first He Hw)
    by (destruct (truthy (nonInteractive o)); reflexivity).
  unfold clears. rewrite Hn. reflexivity.
Qed.

(** X15.  [printInstructions] only logs at the info level, under the tag
    ['webpack'] of the given project: nine lines when there is a LAN URL, with
    the local and the LAN URL, seven lines when there is none, with the local
    URL alone.  It returns, and [useYarn] has no part in it. *)
Theorem printInstructions_lines (root app : string) (u : Urls) (yarn : value) :
  let run := printInstructions root app u yarn in
  result run = Returned tt /\
  Forall (fun e => exists text, e = ProjectLog Info root "webpack" (VStr text)) (trace run) /\
  (truthy (lanUrlForTerminal u) = true ->
   length (trace run) = 9%nat /\
   In (ProjectLog Info root "webpack"
         (VStr ("  " +:+ chalk ["bold"] "Local:" +:+ "            "
                +:+ ToString (localUrlForTerminal u)))) (trace run) /\
   In (ProjectLog Info root "webpack"
         (VStr ("  " +:+ chalk ["bold"] "On Your Network:" +:+ "  "
                +:+ ToString (lanUrlForTerminal u)))) (trace run)) /\
  (truthy (lanUrlForTerminal u) = false ->
   length (trace run) = 7%nat /\
   In (ProjectLog Info root "webpack" (VStr ("  " +:+ ToString (localUrlForTerminal u))))
      (trace run)).
Proof.
  intros run. subst run. unfold printInstructions.
  destruct (truthy (lanUrlForTerminal u)); cbn.
  - split; [reflexivity|]. split; [repeat constructor; eexists; reflexivity|].
    split; [|intros; discriminate]. intros _. split; [reflexivity|].
    split; auto 10.
  - split; [reflexivity|]. split; [repeat constructor; eexists; reflexivity|].
    split; [intros; discriminate|]. intros _. split; [reflexivity|]. auto 10.
Qed.

End CompilerMore.

(** ** Runs of the further properties with the sample imports *)

Section BuilderMoreRuns.
Import WebpackCommon Terms MoreTerms.

#[local] Existing Instance Sample.common_imports.

(** A production build whose service worker configuration switches
    [clientsClaim] off. *)
Lemma service_worker_options_override_witness :
  exists (cfg : Configuration) (options : value),
    module_exports
      (Sample.env (VBool true) [("serviceWorker", obj [("clientsClaim", VBool false)])])
      VUndefined = Normal cfg /\
    In (VNew "WorkboxPlugin.GenerateSW" [options]) (plugins cfg) /\
    prop options "clientsClaim" = VBool false /\
    prop options "importWorkboxFrom" = VStr "cdn".
Proof.
  destruct (service_worker_options_override
              (Sample.env (VBool true)
                 [("serviceWorker", obj [("clientsClaim", VBool false)])])
              VUndefined)
    as (cfg & options & Hcfg & Hin & Hown & _ & Hcdn & _).
  - repeat split.
  - reflexivity.
  - exists cfg, options. split; [exact Hcfg|]. split; [exact Hin|]. split.
    + apply Hown. reflexivity.
    + apply Hcdn. reflexivity.
Defined.

(** An [env] that brings a [filename] and a [mode] of its own. *)
Lemma manifest_options_from_env_witness :
  let env :=
    obj [ ("projectRoot", VStr "/app"); ("development", VBool true);
          ("filename", VStr "mine.json"); ("mode", VStr "development");
          ("config", obj [ ("web", obj []) ]) ] in
  exists (cfg : Configuration) (options : value),
    module_exports env VUndefined = Normal cfg /\
    In (VNew "WebpackPWAManifestPlugin" [prop env "config"; options]) (plugins cfg) /\
    prop options "noResources" = VBool true /\
    prop options "filename" = VStr "/app/web-build/manifest.json" /\
    prop options "mode" = VStr "development".
Proof.
  intros env.
  destruct (manifest_options_from_env
              (list_to_map
                 (rev [ ("projectRoot", VStr "/app"); ("development", VBool true);
                        ("filename", VStr "mine.json"); ("mode", VStr "development");
                        ("config", obj [ ("web", obj []) ]) ]))
              VUndefined)
    as (cfg & options & Hcfg & Hin & Hno & Hfile & Hother).
  - repeat split.
  - exists cfg, options. split; [exact Hcfg|]. split; [exact Hin|].
    split; [exact Hno|]. split; [exact Hfile|].
    rewrite (Hother "mode"); [reflexivity | discriminate | discriminate].
Defined.

(** A report configuration that only names the directory. *)
Lemma report_plugins_when_enabled_witness :
  exists (cfg : Configuration) (before : list value) (cleanOptions options : value),
    module_exports (Sample.env (VBool true) [("report", obj [("path", VStr "out")])])
      VUndefined = Normal cfg /\
    existsb is_report_plugin before = false /\
    plugins cfg =
      before ++ [ VNew "CleanWebpackPlugin" [ VArr [ VStr "/app/out" ]; cleanOptions ];
                  VNew "BundleAnalyzerPlugin" [options] ] /\
    prop options "statsFilename" = VStr "/app/out/stats.json" /\
    prop options "reportFilename" = VStr "/app/out/report.html".
Proof.
  destruct (report_plugins_when_enabled
              (Sample.env (VBool true) [("report", obj [("path", VStr "out")])])
              VUndefined)
    as (cfg & before & Hcfg & Hbefore & _ & Henabled).
  - repeat split.
  - reflexivity.
  - destruct (Henabled eq_refl) as (cleanOptions & options & Hplugins & Hstats & Hreport).
    exists cfg, before, cleanOptions, options.
    split; [exact Hcfg|]. split; [exact Hbefore|]. split; [exact Hplugins|].
    split; [apply Hstats | apply Hreport]; reflexivity.
Defined.

(** A verbose report configuration. *)
Lemma analyzer_options_witness :
  exists (cfg : Configuration) (before cleanArgs : list value) (options : value),
    module_exports (Sample.env (VBool true) [("report", obj [("verbose", VBool true)])])
      VUndefined = Normal cfg /\
    plugins cfg =
      before ++ [ VNew "CleanWebpackPlugin" cleanArgs;
                  VNew "BundleAnalyzerPlugin" [options] ] /\
    prop options "verbose" = VBool true /\
    prop options "logLevel" = VStr "info" /\
    prop options "analyzerMode" = VStr "static".
Proof.
  destruct (analyzer_options
              (Sample.env (VBool true) [("report", obj [("verbose", VBool true)])])
              VUndefined)
    as (cfg & before & cleanArgs & options & Hcfg & Hplugins & Hown & Hmode & _ & _ & _ & Hlog).
  - repeat split.
  - reflexivity.
  - exists cfg, before, cleanArgs, options.
    split; [exact Hcfg|]. split; [exact Hplugins|]. split; [|split].
    + apply Hown. reflexivity.
    + rewrite Hlog; reflexivity.
    + apply Hmode. reflexivity.
Defined.

(** A production build with the sample imports has all ten plugins. *)
Lemma plugin_order_witness :
  exists (cfg : Configuration) (index : value) (others : list value),
    module_exports (Sample.env (VBool true) []) VUndefined = Normal cfg /\
    plugins cfg = index :: others /\
    ctor_of <$> others =
      Some <$> [ "InterpolateHtmlPlugin"; "webpack.DefinePlugin";
                 "WebpackDeepScopeAnalysisPlugin"; "WorkboxPlugin.GenerateSW";
                 "WebpackPWAManifestPlugin"; "ModuleNotFoundPlugin"; "ProgressBarPlugin";
                 "CleanWebpackPlugin"; "BundleAnalyzerPlugin" ].
Proof.
  destruct (plugin_order (Sample.env (VBool true) []) VUndefined)
    as (cfg & index & others & Hcfg & Hplugins & _ & Hctors).
  - repeat split.
  - exists cfg, index, others. split; [exact Hcfg|]. split; [exact Hplugins|].
    exact Hctors.
Defined.

(** A development build. *)
Lemma configuration_follows_environment_witness :
  exists cfg : Configuration,
    module_exports (Sample.env (VBool false) [("publicPath", VStr "/")]) VUndefined
      = Normal cfg /\
    bail cfg = VBool false /\
    prop (output cfg) "publicPath" = VStr "/" /\
    devtool cfg = VStr "cheap-module-source-map".
Proof.
  destruct (configuration_follows_environment
              (Sample.env (VBool false) [("publicPath", VStr "/")]) VUndefined)
    as (cfg & Hcfg & Hbail & Hpath & Hdevtool).
  - repeat split.
  - exists cfg. split; [exact Hcfg|]. split; [exact Hbail|]. split; [exact Hpath|].
    exact Hdevtool.
Defined.

(** The report switched on with [true]: the sample override hands out
    [DEFAULT_REPORT_CONFIG] then, so an empty object is used here. *)
Lemma report_defaults_witness :
  exists (cfg : Configuration) (before : list value) (cleanOptions options : value),
    module_exports (Sample.env (VBool true) [("report", obj [])]) VUndefined = Normal cfg /\
    plugins cfg =
      before ++ [ VNew "CleanWebpackPlugin" [ VArr [ VStr "/app/web-report" ]; cleanOptions ];
                  VNew "BundleAnalyzerPlugin" [options] ] /\
    prop options "statsFilename" = VStr "/app/web-report/stats.json" /\
    prop options "logLevel" = VStr "silent".
Proof.
  destruct (report_defaults (Sample.env (VBool true) [("report", obj [])]) VUndefined)
    as (cfg & before & Hcfg & Hplugins).
  - repeat split.
  - reflexivity.
  - reflexivity.
  - do 4 eexists. split; [exact Hcfg|]. split; [exact Hplugins|].
    split; reflexivity.
Defined.

End BuilderMoreRuns.

Section CompilerMoreRuns.
Import WebpackCompiler CompilerTerms MoreTerms.

#[local] Existing Instance Sample.compiler_imports.

(** A compiler that has the 'invalid' hook only. *)
Lemma createWebpackCompiler_taps_hooks_witness :
  createWebpackCompiler
    (Sample.options (VBool true)
       (fun _ => Normal (obj [ ("hooks", obj [ ("invalid", obj [ ("tap", VRef "tap") ]) ]) ])))
  = Proc [ HookTap "invalid" "invalid" ] (Uncaught TypeError).
Proof.
  apply (createWebpackCompiler_taps_hooks
           (Sample.options (VBool true)
              (fun _ => Normal (obj [ ("hooks",
                                       obj [ ("invalid", obj [ ("tap", VRef "tap") ]) ]) ])))
           (obj [ ("hooks", obj [ ("invalid", obj [ ("tap", VRef "tap") ]) ]) ])).
  reflexivity.
Defined.

(** The constructor throws [undefined]. *)
Lemma constructor_failure_nullish_error_witness :
  createWebpackCompiler (Sample.options (VBool true) (fun _ => Throw VUndefined))
  = Proc [ ProjectLog Error "/app" "webpack" (VStr " ");
           ProjectLog Error "/app" "webpack" (VStr "Failed to compile");
           ProjectLog Error "/app" "webpack" (VStr " ") ]
         (Uncaught TypeError).
Proof.
  apply (constructor_failure_nullish_error
           (Sample.options (VBool true) (fun _ => Throw VUndefined)) VUndefined);
    reflexivity.
Defined.

(** A compile with one warning. *)
Lemma unsuccessful_compile_info_lines_witness :
  filter (fun e => is_info e = true)
    (trace (done_handler (Sample.options (VBool false) (fun _ => Normal Sample.compiler))
              true (Sample.stats [] ["w"])))
  = [ ProjectLog Info "/app" "webpack" (VStr " ") ].
Proof.
  apply (unsuccessful_compile_info_lines
           (Sample.options (VBool false) (fun _ => Normal Sample.compiler))
           true (Sample.stats [] ["w"])).
  right. discriminate.
Defined.

(** A compile with two warnings. *)
Lemma done_handler_with_warnings_witness :
  existsb is_error
    (trace (done_handler (Sample.options (VBool true) (fun _ => Normal Sample.compiler))
              false (Sample.stats [] ["w1"; "w2"]))) = false /\
  In (ProjectLog Warning "/app" "webpack" (VStr ("w1" +:+ nl +:+ nl +:+ "w2")))
     (trace (done_handler (Sample.options (VBool true) (fun _ => Normal Sample.compiler))
               false (Sample.stats [] ["w1"; "w2"]))).
Proof.
  destruct (done_handler_with_warnings
              (Sample.options (VBool true) (fun _ => Normal Sample.compiler))
              false (Sample.stats [] ["w1"; "w2"]) "w1" ["w2"])
    as (Htrace & Hin & Hnone); [reflexivity | reflexivity |].
  split; [exact Hnone|].
  rewrite Htrace. apply in_or_app. right. apply in_or_app. right. exact Hin.
Defined.

(** Two successful compiles in an interactive session. *)
Lemma interactive_instructions_every_time_witness :
  let o := Sample.options (VBool false) (fun _ => Normal Sample.compiler) in
  fire_done o true [Sample.stats [] []; Sample.stats [] []] =
    (fun _ => ClearConsole :: success_lines o
              ++ trace (printInstructions (projectRoot o) (appName o) (urls o) (useYarn o))
              ++ [OnFinished]) <$> [Sample.stats [] []; Sample.stats [] []].
Proof.
  intros o.
  apply (interactive_instructions_every_time o true [Sample.stats [] []; Sample.stats [] []]).
  - reflexivity.
  - repeat constructor.
Defined.

(** A failed compile followed by a successful one, non-interactive. *)
Lemma failed_first_compile_never_instructs_witness :
  let o := Sample.options (VBool true) (fun _ => Normal Sample.compiler) in
  fire_done o true [Sample.stats ["e"] []; Sample.stats [] []] =
    fire (done_handler_quiet o) true [Sample.stats ["e"] []; Sample.stats [] []].
Proof.
  intros o.
  apply (failed_first_compile_never_instructs o (Sample.stats ["e"] []) [Sample.stats [] []]).
  - reflexivity.
  - left. discriminate.
Defined.

(** Two successful compiles, non-interactive. *)
Lemma noninteractive_first_success_instructs_witness :
  let o := Sample.options (VBool true) (fun _ => Normal Sample.compiler) in
  fire_done o true [Sample.stats [] []; Sample.stats [] []] =
    (success_lines o
     ++ trace (printInstructions (projectRoot o) (appName o) (urls o) (useYarn o))
     ++ [OnFinished])
    :: fire (done_handler_quiet o) false [Sample.stats [] []].
Proof.
  intros o.
  apply (noninteractive_first_success_instructs o (Sample.stats [] []) [Sample.stats [] []]);
    reflexivity.
Defined.

End CompilerMoreRuns.
